(** * WeatherMaker: forecast collection, normalisation and storage

    A shallow embedding of [weather_maker.py] and [database_init.py]:
    the field parsers of [WeatherMaker], its [save_forecast] loop, and the
    two database operations of [DatabaseUpdater] over the [Forecast] table;
    then [initial_launch] and, of [ImageMaker], [prepare_forecast], the
    colour lookup of [add_gradient] and the choice of icon of [add_image]
    (the drawing itself, OpenCV calls on the image, is not modelled).

    Modelling choices.
    - A Python [str] is a sequence of Unicode code points: [list N].  The
      literals of the source are ASCII and are written [lit "..."].
    - A [datetime.date] is its proleptic Gregorian ordinal
      ([date.toordinal]), between 1 and [MAXORDINAL]: comparison of dates
      is comparison of ordinals and [d + timedelta(days=1)] is the next
      ordinal, with [OverflowError] past [date.max].
    - A Python exception is a value of [exn]; code that can raise returns a
      [result].
    - The network and the HTML parser are outside the repository: a fetched
      page is the record [Soup] of what the [find] calls of the parsers
      return on it, and the World Wide Web is a function from the date a
      URL embeds to the page served for it.
    - The [Forecast] table is the list of its rows in rowid order; peewee's
      [get_or_create], [update ... where] and [select ... where ...
      order_by] are modelled on that list. *)

From Stdlib Require Import List ZArith NArith Bool String Ascii Lia.
From Stdlib Require Import Permutation Sorted.
Import ListNotations.

Local Open Scope Z_scope.

(** ** Python strings *)

Module Str.

Definition char := N.
Definition str := list char.

(** An ASCII literal of the source as a [str]. *)
Fixpoint lit (s : string) : str :=
  match s with
  | EmptyString => []
  | String c s' => N_of_ascii c :: lit s'
  end.

Fixpoint eqb (a b : str) : bool :=
  match a, b with
  | [], [] => true
  | x :: a', y :: b' => N.eqb x y && eqb a' b'
  | _, _ => false
  end.

(** [s.startswith(p)] *)
Fixpoint startswith (p s : str) : bool :=
  match p, s with
  | [], _ => true
  | _ :: _, [] => false
  | x :: p', y :: s' => N.eqb x y && startswith p' s'
  end.

(** [sub in s]: [sub] occurs at some offset of [s]. *)
Fixpoint contains (sub s : str) : bool :=
  startswith sub s ||
  match s with
  | [] => false
  | _ :: s' => contains sub s'
  end.

(** [s[:-1]]: all but the last character; the empty string stays empty. *)
Definition drop_last (s : str) : str := removelast s.

(** The propositional reading of [sub in s]. *)
Definition occurs (sub s : str) : Prop :=
  exists pre post, s = pre ++ sub ++ post.

(** ASCII lower-casing, used only to speak about casings that the keyword
    table does not list. *)
Definition lower_char (c : char) : char :=
  if (N.leb 65 c && N.leb c 90)%bool then (c + 32)%N else c.

Definition lower (s : str) : str := map lower_char s.

End Str.

Import Str.

(** ** Exceptions *)

Inductive exn : Type :=
| RequestException   (* requests.get failed *)
| AttributeError     (* attribute access on None *)
| TypeError          (* subscript of None *)
| KeyError           (* missing key or tag attribute *)
| OverflowError.     (* date value out of range *)

Inductive result (A : Type) : Type :=
| Ok (a : A)
| Raise (e : exn).

Arguments Ok {A} a.
Arguments Raise {A} e.

Definition bind {A B : Type} (m : result A) (k : A -> result B) : result B :=
  match m with
  | Ok a => k a
  | Raise e => Raise e
  end.

Declare Scope result_scope.
Delimit Scope result_scope with result.
Notation "x <- m ;; k" := (bind m (fun x => k))
  (at level 61, m at next level, right associativity) : result_scope.

(** [o.attr] where [o] may be [None]. *)
Definition attr_of {A : Type} (o : option A) : result A :=
  match o with
  | Some a => Ok a
  | None => Raise AttributeError
  end.

(** ** The condition table *)

Definition WEATHER_TYPES : list str :=
  [lit "Cloudy"; lit "Rainy"; lit "Snowy"; lit "Sunny"].

(** [WEATHER_TYPES[i]] for the constant indices of the source. *)
Definition WEATHER_TYPES_at (i : nat) : str := nth i WEATHER_TYPES [].

(** A dict whose keys are tuples of keywords, in insertion order. *)
Definition condition_dict := list (list str * str).

Definition WEATHER_CONDITION_DICT : condition_dict :=
  [ ([lit "Cloud"; lit "cloud"; lit "overcast"; lit "Overcast";
      lit "foggy"; lit "Foggy"], WEATHER_TYPES_at 0);
    ([lit "Rain"; lit "rain"; lit "Drizzle"; lit "drizzle"],
      WEATHER_TYPES_at 1);
    ([lit "Snow"; lit "snow"], WEATHER_TYPES_at 2);
    ([lit "Sun"; lit "sun"; lit "Clear"; lit "clear"], WEATHER_TYPES_at 3) ].

Fixpoint tuple_eqb (a b : list str) : bool :=
  match a, b with
  | [], [] => true
  | x :: a', y :: b' => Str.eqb x y && tuple_eqb a' b'
  | _, _ => false
  end.

(** [d.keys()] *)
Definition dict_keys (d : condition_dict) : list (list str) := map fst d.

(** [d[key]] *)
Fixpoint dict_getitem (d : condition_dict) (key : list str) : result str :=
  match d with
  | [] => Raise KeyError
  | (k, v) :: d' => if tuple_eqb k key then Ok v else dict_getitem d' key
  end.

(** ** Fetched pages

    What the parsers read from a [BeautifulSoup] object: the results of
    their [find] calls ([None] when the tag is absent) and the texts and
    attributes they access. *)

(** [span.val.swap] inside [div.wind]. *)
Record WindVal : Type := {
  num_swip : option str;           (* .text of span.num.swip *)
  unit_swap : option str;          (* .text of span.unit.swap *)
  direction : option (option str)  (* span.direction and its title *)
}.

Record Soup : Type := {
  (* div.temperature, then its span.val.swap with
     get_text(separator=' ', strip=True) *)
  temperature_div : option (option str);
  (* .text of p#summary *)
  summary : option str;
  (* div.wind, then its span.val.swap *)
  wind_div : option (option WindVal)
}.

Local Open Scope result_scope.

(** ** WeatherMaker: the field parsers *)

Definition parse_temperature (soup : Soup) : result str :=
  temperature <- attr_of (temperature_div soup) ;;
  temperature <- attr_of temperature ;;
  Ok (drop_last temperature ++ lit "deg C").

(** The inner [for] of [parse_weather_condition]: [Ok (Some v)] when its
    [return] ran with value [v], [Ok None] when the tuple is exhausted. *)
Fixpoint scan_tuple (weather_condition : option str)
    (condition_tuple rest : list str) : result (option str) :=
  match rest with
  | [] => Ok None
  | condition :: rest' =>
      text <- attr_of weather_condition ;;
      if contains condition text
      then v <- dict_getitem WEATHER_CONDITION_DICT condition_tuple ;;
           Ok (Some v)
      else scan_tuple weather_condition condition_tuple rest'
  end.

(** The outer [for ... else]: the [else] runs when no [return] did. *)
Fixpoint scan_keys (weather_condition : option str)
    (keys : list (list str)) : result str :=
  match keys with
  | [] => attr_of weather_condition
  | condition_tuple :: keys' =>
      r <- scan_tuple weather_condition condition_tuple condition_tuple ;;
      match r with
      | Some v => Ok v
      | None => scan_keys weather_condition keys'
      end
  end.

Definition parse_weather_condition (soup : Soup) : result str :=
  scan_keys (summary soup) (dict_keys WEATHER_CONDITION_DICT).

(** [tag['title']] where [tag] is the result of a [find]. *)
Definition title_of (tag : option (option str)) : result str :=
  match tag with
  | None => Raise TypeError
  | Some None => Raise KeyError
  | Some (Some t) => Ok t
  end.

Definition parse_wind (soup : Soup) : result str :=
  wind <- attr_of (wind_div soup) ;;
  wind <- attr_of wind ;;
  let wind_force := num_swip wind in
  let wind_units := unit_swap wind in
  let wind_direction := direction wind in
  wind_direction <- title_of wind_direction ;;
  force_text <- attr_of wind_force ;;
  units_text <- attr_of wind_units ;;
  Ok (force_text ++ lit " " ++ units_text ++ lit "    " ++ wind_direction).

(** ** Dates *)

Module Datetime.

Definition date := Z.

(** [date.max.toordinal()], the ordinal of 9999-12-31. *)
Definition MAXORDINAL : Z := 3652059.

Definition valid (d : date) : Prop := 1 <= d <= MAXORDINAL.

Definition is_leap (year : Z) : bool :=
  (year mod 4 =? 0) && (negb (year mod 100 =? 0) || (year mod 400 =? 0)).

Definition days_before_year (year : Z) : Z :=
  let y := year - 1 in y * 365 + y / 4 - y / 100 + y / 400.

Definition days_in_month (year month : Z) : Z :=
  if month =? 2 then (if is_leap year then 29 else 28)
  else if (month =? 4) || (month =? 6) || (month =? 9) || (month =? 11)
       then 30 else 31.

Fixpoint days_before_month_aux (year : Z) (months : nat) : Z :=
  match months with
  | O => 0
  | S n => days_before_month_aux year n + days_in_month year (Z.of_nat (S n))
  end.

Definition days_before_month (year month : Z) : Z :=
  days_before_month_aux year (Z.to_nat (month - 1)).

(** The ordinal of the calendar day [year-month-day]. *)
Definition ymd2ord (year month day : Z) : date :=
  days_before_year year + days_before_month year month + day.

(** [d + timedelta(days=1)] *)
Definition add_one_day (d : date) : result date :=
  if d + 1 <=? MAXORDINAL then Ok (d + 1) else Raise OverflowError.

End Datetime.

(** ** WeatherMaker: the collector *)

(** The inner dict of one day, with its four keys. *)
Record entry : Type := {
  Date : Datetime.date;
  Temperature : str;
  Weather_condition : str;
  Wind : str
}.

(** The dict [weather_forecast], in insertion order. *)
Definition mapping := list (Datetime.date * entry).

(** [m[k] = v]: the value of an existing key is replaced in place, a new
    key goes last. *)
Fixpoint setitem (m : mapping) (k : Datetime.date) (v : entry) : mapping :=
  match m with
  | [] => [(k, v)]
  | (k', v') :: m' =>
      if k' =? k then (k', v) :: m' else (k', v') :: setitem m' k v
  end.

(** [m.values()] *)
Definition values (m : mapping) : list entry := map snd m.

Record WeatherMaker : Type := {
  weather_forecast : mapping;
  start_date : Datetime.date;
  end_date : Datetime.date
}.

(** [WeatherMaker(start_date, end_date)], the arguments being the dates
    that [date.fromisoformat] read. *)
Definition WeatherMaker_init (start_date end_date : Datetime.date)
  : WeatherMaker :=
  {| weather_forecast := []; start_date := start_date;
     end_date := end_date |}.

Section Web.

(** [requests.get(url)] for the URL of a date, followed by
    [BeautifulSoup(html_doc.text)]: the page served, or the exception the
    request raised. *)
Variable requests_get : Datetime.date -> result Soup.

(** The body of the [while] up to the increment: the four assignments into
    [weather_forecast[current_date]].  An exception leaves the loop with
    the instance, which no caller keeps. *)
Definition collect_day (current_date : Datetime.date)
    (weather_forecast : mapping) : result mapping :=
  soup <- requests_get current_date ;;
  temperature <- parse_temperature soup ;;
  condition <- parse_weather_condition soup ;;
  wind <- parse_wind soup ;;
  Ok (setitem weather_forecast current_date
        {| Date := current_date; Temperature := temperature;
           Weather_condition := condition; Wind := wind |}).

(** The [while] loop.  [fetched] is the list of the dates whose URL was
    requested so far, oldest first; the outcome is [None] when [fuel]
    iterations were not enough. *)
Fixpoint save_forecast_loop (fuel : nat)
    (current_date end_date : Datetime.date) (weather_forecast : mapping)
    (fetched : list Datetime.date)
  : option (result mapping * list Datetime.date) :=
  if current_date <=? end_date then
    match fuel with
    | O => None
    | S fuel' =>
        let fetched' := fetched ++ [current_date] in
        match collect_day current_date weather_forecast with
        | Raise e => Some (Raise e, fetched')
        | Ok weather_forecast' =>
            match Datetime.add_one_day current_date with
            | Raise e => Some (Raise e, fetched')
            | Ok next_date =>
                save_forecast_loop fuel' next_date end_date
                  weather_forecast' fetched'
            end
        end
    end
  else Some (Ok weather_forecast, fetched).

(** One iteration per day of the range is all the loop can make. *)
Definition days_in_range (start_date end_date : Datetime.date) : nat :=
  Z.to_nat (end_date - start_date + 1).

Definition save_forecast (self : WeatherMaker)
  : option (result mapping * list Datetime.date) :=
  save_forecast_loop (days_in_range (start_date self) (end_date self))
    (start_date self) (end_date self) (weather_forecast self) [].

End Web.

(** ** The Forecast table *)

Module Forecast.

(** A row of the model [Forecast]: peewee adds the integer primary key
    [id] to the four declared fields.  [date] carries no unique index. *)
Record row : Type := {
  id : Z;
  date : Datetime.date;
  temperature : str;
  condition : str;
  wind : str
}.

End Forecast.

(** The statements sent to the database. *)
Inductive statement : Type :=
| SELECT_first (d : Datetime.date)
| INSERT (r : Forecast.row)
| UPDATE (d : Datetime.date) (temperature condition wind : str)
| SELECT_between (start_date end_date : Datetime.date).

(** The table, rows in rowid order, and the statements executed on it,
    oldest first. *)
Record Database : Type := {
  rows : list Forecast.row;
  executed : list statement
}.

Definition execute (s : statement) (rows' : list Forecast.row)
    (db : Database) : Database :=
  {| rows := rows'; executed := executed db ++ [s] |}.

(** The rowid of the next inserted row: one more than the largest. *)
Definition next_id (t : list Forecast.row) : Z :=
  fold_right (fun r m => Z.max (Forecast.id r) m) 0 t + 1.

(** [Forecast.get_or_create(date=d, defaults={...})]: the first row of
    that date and [false], or else a freshly inserted row and [true]. *)
Definition get_or_create (db : Database) (d : Datetime.date)
    (temperature condition wind : str)
  : (Forecast.row * bool) * Database :=
  let db1 := execute (SELECT_first d) (rows db) db in
  match find (fun r => Forecast.date r =? d) (rows db) with
  | Some data => ((data, false), db1)
  | None =>
      let data := {| Forecast.id := next_id (rows db);
                     Forecast.date := d;
                     Forecast.temperature := temperature;
                     Forecast.condition := condition;
                     Forecast.wind := wind |} in
      ((data, true), execute (INSERT data) (rows db ++ [data]) db1)
  end.

(** [Forecast.update({temperature: .., condition: .., wind: ..})
      .where(Forecast.date == d).execute()] *)
Definition update_where_date (db : Database) (d : Datetime.date)
    (temperature condition wind : str) : Database :=
  execute (UPDATE d temperature condition wind)
    (map (fun r =>
            if Forecast.date r =? d
            then {| Forecast.id := Forecast.id r;
                    Forecast.date := Forecast.date r;
                    Forecast.temperature := temperature;
                    Forecast.condition := condition;
                    Forecast.wind := wind |}
            else r) (rows db))
    db.

(** [ORDER BY date], as a stable insertion sort. *)
Fixpoint insert_by_date (r : Forecast.row) (l : list Forecast.row)
  : list Forecast.row :=
  match l with
  | [] => [r]
  | x :: l' =>
      if Forecast.date r <=? Forecast.date x then r :: l
      else x :: insert_by_date r l'
  end.

Definition order_by_date (l : list Forecast.row) : list Forecast.row :=
  fold_right insert_by_date [] l.

(** [date BETWEEN start AND end], both bounds included. *)
Definition between (start_date end_date : Datetime.date)
    (r : Forecast.row) : bool :=
  (start_date <=? Forecast.date r) && (Forecast.date r <=? end_date).

(** ** DatabaseUpdater *)

(** [get_forecast]: the rows selected, in the order they are iterated
    over and printed, one console line each (the lines themselves are not
    modelled), and the database after the query. *)
Definition get_forecast (db : Database) (start_date end_date : Datetime.date)
  : list Forecast.row * Database :=
  (order_by_date (filter (between start_date end_date) (rows db)),
   execute (SELECT_between start_date end_date) (rows db) db).

(** The body of the [for] of [store_forecast], for one [record]. *)
Definition store_record (db : Database) (record : entry) : Database :=
  let '((data, created), db1) :=
    get_or_create db (Date record) (Temperature record)
      (Weather_condition record) (Wind record) in
  if (created : bool)
  then update_where_date db1 (Date record) (Temperature record)
         (Weather_condition record) (Wind record)
  else db1.

Section Store.

Variable requests_get : Datetime.date -> result Soup.

(** [store_forecast(args)]: the outcome of the collector; on success the
    database after the [for] over [forecast.values()]. *)
Definition store_forecast (db : Database)
    (start_date end_date : Datetime.date)
  : option (result Database * list Datetime.date) :=
  match save_forecast requests_get
          (WeatherMaker_init start_date end_date) with
  | None => None
  | Some (Raise e, fetched) => Some (Raise e, fetched)
  | Some (Ok forecast, fetched) =>
      Some (Ok (fold_left store_record (values forecast) db), fetched)
  end.

End Store.

(** The four fields of a row that a record carries. *)
Definition entry_of_row (r : Forecast.row) : entry :=
  {| Date := Forecast.date r; Temperature := Forecast.temperature r;
     Weather_condition := Forecast.condition r; Wind := Forecast.wind r |}.

(** The rows stored for a date. *)
Definition rows_of_date (d : Datetime.date) (t : list Forecast.row)
  : list Forecast.row :=
  filter (fun r => Forecast.date r =? d) t.

(** At most one row per date. *)
Definition unique_dates (t : list Forecast.row) : Prop :=
  NoDup (map Forecast.date t).

(** ** Notions used to state the properties *)

(** Some keyword of the group occurs in the text. *)
Definition group_occurs (keywords : list str) (text : str) : Prop :=
  exists k, In k keywords /\ occurs k text.

Definition group_occursb (keywords : list str) (text : str) : bool :=
  existsb (fun k => contains k text) keywords.

(** Every keyword the table lists, in any group. *)
Definition listed_keywords : list str :=
  List.concat (dict_keys WEATHER_CONDITION_DICT).

(** A page whose summary paragraph has the given text. *)
Definition soup_with_summary (text : str) : Soup :=
  {| temperature_div := None; summary := Some text; wind_div := None |}.

(** The row that [get_or_create] inserts for a record. *)
Definition inserted_row (db : Database) (record : entry) : Forecast.row :=
  {| Forecast.id := next_id (rows db);
     Forecast.date := Date record;
     Forecast.temperature := Temperature record;
     Forecast.condition := Weather_condition record;
     Forecast.wind := Wind record |}.

(** Some stored row has the date. *)
Definition has_date (d : Datetime.date) (t : list Forecast.row) : Prop :=
  exists r, In r t /\ Forecast.date r = d.

(** Rows in ascending order of date. *)
Definition ascending_by_date (l : list Forecast.row) : Prop :=
  StronglySorted (fun a b => Forecast.date a <= Forecast.date b) l.

(** ** Concrete data: the day 2021-06-01 *)

Definition day_2021_06_01 : Datetime.date := Datetime.ymd2ord 2021 6 1.
Definition day_2021_06_19 : Datetime.date := Datetime.ymd2ord 2021 6 19.
Definition day_2021_06_20 : Datetime.date := Datetime.ymd2ord 2021 6 20.
Definition day_9999_12_31 : Datetime.date := Datetime.ymd2ord 9999 12 31.

(** The degree sign U+00B0. *)
Definition DEGREE : char := 176%N.

(** A page with the given temperature text, the summary
    "Partly cloudy skies" and the wind 10 km/h from NW. *)
Definition scenario_soup (temperature_text : str) : Soup :=
  {| temperature_div := Some (Some temperature_text);
     summary := Some (lit "Partly cloudy skies");
     wind_div :=
       Some (Some {| num_swip := Some (lit "10");
                     unit_swap := Some (lit "km/h");
                     direction := Some (Some (lit "NW")) |}) |}.

(** A web that serves that page for every date. *)
Definition scenario_web (temperature_text : str)
  : Datetime.date -> result Soup :=
  fun _ => Ok (scenario_soup temperature_text).

Definition scenario_record : entry :=
  {| Date := day_2021_06_01; Temperature := lit "15.0deg C";
     Weather_condition := lit "Cloudy"; Wind := lit "10 km/h    NW" |}.

Definition empty_db : Database := {| rows := []; executed := [] |}.

(** A row stored earlier for 2021-06-01, with other values. *)
Definition stale_row : Forecast.row :=
  {| Forecast.id := 2; Forecast.date := day_2021_06_01;
     Forecast.temperature := lit "10.0deg C";
     Forecast.condition := lit "Sunny";
     Forecast.wind := lit "5 km/h    N" |}.

Definition stale_db : Database := {| rows := [stale_row]; executed := [] |}.

(** A table with rows for 2021-06-20, 2021-06-01 and 2021-06-19, stored
    in that order. *)
Definition populated_db : Database :=
  {| rows :=
       [ {| Forecast.id := 1; Forecast.date := day_2021_06_20;
            Forecast.temperature := lit "21.0deg C";
            Forecast.condition := lit "Sunny";
            Forecast.wind := lit "3 km/h    S" |};
         stale_row;
         {| Forecast.id := 3; Forecast.date := day_2021_06_19;
            Forecast.temperature := lit "18.0deg C";
            Forecast.condition := lit "Rainy";
            Forecast.wind := lit "7 km/h    E" |} ];
     executed := [] |}.

(** ** The rest of the program *)

(** The record that one iteration of [save_forecast] builds for a day:
    the page of the day through the three parsers. *)
Definition forecast_of_day (requests_get : Datetime.date -> result Soup)
    (d : Datetime.date) : result entry :=
  soup <- requests_get d ;;
  temperature <- parse_temperature soup ;;
  condition <- parse_weather_condition soup ;;
  wind <- parse_wind soup ;;
  Ok {| Date := d; Temperature := temperature;
        Weather_condition := condition; Wind := wind |}.

(** The [n] consecutive dates from [start_date] on. *)
Definition date_range (start_date : Datetime.date) (n : nat)
  : list Datetime.date :=
  map (fun i => start_date + Z.of_nat i) (seq 0 n).

(** [m[k]] on the dict [weather_forecast]: a [defaultdict()] without a
    factory raises [KeyError] on a missing key. *)
Fixpoint mapping_getitem (m : mapping) (k : Datetime.date) : result entry :=
  match m with
  | [] => Raise KeyError
  | (k', v) :: m' => if k' =? k then Ok v else mapping_getitem m' k
  end.


(** [WEATHER_COLOR_CODES], the colour of each weather type. *)
Definition WEATHER_COLOR_CODES : list (str * (Z * Z * Z)) :=
  [ (WEATHER_TYPES_at 0, (128, 128, 128));
    (WEATHER_TYPES_at 1, (255, 0, 0));
    (WEATHER_TYPES_at 2, (255, 191, 0));
    (WEATHER_TYPES_at 3, (0, 255, 255)) ].

(** [WEATHER_COLOR_CODES[key]] *)
Fixpoint color_getitem (d : list (str * (Z * Z * Z))) (key : str)
  : result (Z * Z * Z) :=
  match d with
  | [] => Raise KeyError
  | (k, v) :: d' => if Str.eqb k key then Ok v else color_getitem d' key
  end.

(** The first statement of [ImageMaker.add_gradient]: the colour the
    gradient starts from.  (The drawing that follows is floating-point
    arithmetic on the image and is not modelled.) *)
Definition add_gradient_initial_color (weather_forecast : entry)
  : result (Z * Z * Z) :=
  color_getitem WEATHER_COLOR_CODES (Weather_condition weather_forecast).

(** [s.rstrip(chars)]: the trailing characters of [s] that belong to the
    set [chars] are removed. *)
Fixpoint rstrip (s chars : str) : str :=
  match s with
  | [] => []
  | c :: s' =>
      match rstrip s' chars with
      | [] => if existsb (N.eqb c) chars then [] else [c]
      | r => c :: r
      end
  end.

(** The test of [ImageMaker.add_image] on one file name.  [lower] is
    Python's on ASCII text: [add_image] runs after [add_gradient], which
    lets only the four weather types through. *)
Definition add_image_matches (file condition : str) : bool :=
  contains (rstrip file (lit ".jpg")) (lower condition).

(** The two loops of [add_image] over what [os.walk] lists, the file
    names of each directory: the first file that passes the test is the
    icon pasted on the postcard; [None] when no file does. *)
Fixpoint add_image_in_directory (filenames : list str) (condition : str)
  : option str :=
  match filenames with
  | [] => None
  | file :: filenames' =>
      if add_image_matches file condition then Some file
      else add_image_in_directory filenames' condition
  end.

Fixpoint add_image_file (walk : list (list str)) (condition : str)
  : option str :=
  match walk with
  | [] => None
  | filenames :: walk' =>
      match add_image_in_directory filenames condition with
      | Some file => Some file
      | None => add_image_file walk' condition
      end
  end.

Section Launch.

Variable requests_get : Datetime.date -> result Soup.

(** [ImageMaker.prepare_forecast(selected_date)]: the forecast of the one
    day, looked up in the mapping that [save_forecast] returns. *)
Definition prepare_forecast (selected_date : Datetime.date)
  : option (result entry * list Datetime.date) :=
  match save_forecast requests_get
          (WeatherMaker_init selected_date selected_date) with
  | None => None
  | Some (Raise e, fetched) => Some (Raise e, fetched)
  | Some (Ok selected_forecast, fetched) =>
      Some (mapping_getitem selected_forecast selected_date, fetched)
  end.


End Launch.

(** Some listed keyword occurs in the text. *)
Definition keyword_occurs (text : str) : Prop :=
  exists g, In g WEATHER_CONDITION_DICT /\ group_occurs (fst g) text.

(** Rows in strictly ascending order of date. *)
Definition strictly_ascending_by_date (l : list Forecast.row) : Prop :=
  StronglySorted (fun a b => Forecast.date a < Forecast.date b) l.

(** Every stored row keeps out of the range of dates. *)
Definition none_stored_between (start_date end_date : Datetime.date)
    (t : list Forecast.row) : Prop :=
  forall r, In r t -> ~ (start_date <= Forecast.date r <= end_date).

(** A web whose pages lack the wind block from the given date on. *)
Definition broken_from (d0 : Datetime.date)
  : Datetime.date -> result Soup :=
  fun d =>
    if d0 <=? d
    then Ok {| temperature_div := Some (Some (lit "15.0" ++ [DEGREE]));
               summary := Some (lit "Partly cloudy skies");
               wind_div := None |}
    else Ok (scenario_soup (lit "15.0" ++ [DEGREE])).

(** Days collected without error, in order, each with its record. *)
Definition collected (requests_get : Datetime.date -> result Soup)
    (days : list Datetime.date) (entries : list entry) : Prop :=
  Forall2 (fun d e => forecast_of_day requests_get d = Ok e) days entries.

(** The assignments [weather_forecast[d] = e] of a list of days. *)
Definition assign_all (wf : mapping)
    (items : list (Datetime.date * entry)) : mapping :=
  fold_left (fun m de => setitem m (fst de) (snd de)) items wf.

(** The test that some stored row has the date. *)
Definition has_dateb (d : Datetime.date) (t : list Forecast.row) : bool :=
  existsb (fun r => Forecast.date r =? d) t.

(** The records whose date is not stored yet. *)
Definition not_stored (t : list Forecast.row) (records : list entry)
  : list entry :=
  filter (fun e => negb (has_dateb (Date e) t)) records.


(** * Properties *)

(** ** Strings *)

Lemma str_eqb_eq (a b : str) : Str.eqb a b = true <-> a = b.
Proof.
  revert b; induction a as [|x a IH]; intros [|y b]; simpl;
    try (split; [discriminate | discriminate]); try tauto.
  rewrite andb_true_iff, N.eqb_eq, IH.
  split; [intros [-> ->]; reflexivity | intros H; inversion H; auto].
Qed.

Lemma startswith_app (p s : str) :
  startswith p s = true <-> exists post, s = p ++ post.
Proof.
  revert s; induction p as [|x p IH]; intros s; simpl.
  - split; [eexists; reflexivity | reflexivity].
  - destruct s as [|y s].
    + split; [discriminate | intros [post H]; discriminate].
    + rewrite andb_true_iff, N.eqb_eq, IH. split.
      * intros [-> [post ->]]. exists post; reflexivity.
      * intros [post H]. inversion H; subst. split; [reflexivity | eauto].
Qed.

Lemma contains_occurs (sub s : str) :
  contains sub s = true <-> occurs sub s.
Proof.
  unfold occurs. induction s as [|y s IH].
  - simpl. rewrite orb_false_r, startswith_app. split.
    + intros [post H]. exists [], post. exact H.
    + intros [pre [post H]]. destruct pre as [|? ?]; [|discriminate].
      exists post. exact H.
  - cbn [contains]. rewrite orb_true_iff, startswith_app, IH. split.
    + intros [[post H] | [pre [post H]]].
      * exists [], post. exact H.
      * exists (y :: pre), post. rewrite H. reflexivity.
    + intros [pre [post H]]. destruct pre as [|z pre].
      * left. exists post. exact H.
      * right. inversion H; subst. exists pre, post. reflexivity.
Qed.

Lemma not_contains_occurs (sub s : str) :
  contains sub s = false <-> ~ occurs sub s.
Proof.
  rewrite <- contains_occurs. destruct (contains sub s); split; auto;
    try discriminate. intros H; exfalso; apply H; reflexivity.
Qed.

Lemma drop_last_snoc (s : str) (c : char) : drop_last (s ++ [c]) = s.
Proof. apply removelast_last. Qed.

Lemma group_occursb_true (keywords : list str) (text : str) :
  group_occursb keywords text = true <-> group_occurs keywords text.
Proof.
  unfold group_occursb, group_occurs. rewrite existsb_exists.
  split; intros [k [Hin Hk]]; exists k; split; auto;
    now apply contains_occurs.
Qed.

Lemma group_occursb_false (keywords : list str) (text : str) :
  group_occursb keywords text = false <-> ~ group_occurs keywords text.
Proof.
  rewrite <- group_occursb_true.
  destruct (group_occursb keywords text); split; auto; try discriminate.
  intros H; exfalso; apply H; reflexivity.
Qed.

(** ** The Condition Normalizer *)

Lemma dict_getitem_listed (keywords : list str) (category : str) :
  In (keywords, category) WEATHER_CONDITION_DICT ->
  dict_getitem WEATHER_CONDITION_DICT keywords = Ok category.
Proof.
  intros H. repeat (destruct H as [H | H];
    [injection H as <- <-; vm_compute; reflexivity |]).
  destruct H.
Qed.

Lemma WEATHER_CONDITION_DICT_NoDup : NoDup WEATHER_CONDITION_DICT.
Proof.
  repeat (constructor;
    [intros H; repeat (destruct H as [H | H]; [discriminate H |]);
     exact H |]).
  constructor.
Qed.

(** The inner loop returns at the first keyword found and never looks
    further: it is a test of the whole group. *)
Lemma scan_tuple_text (text : str) (key rest : list str) :
  scan_tuple (Some text) key rest =
  if group_occursb rest text
  then (v <- dict_getitem WEATHER_CONDITION_DICT key ;; Ok (Some v))
  else Ok None.
Proof.
  induction rest as [|c rest IH]; simpl; [reflexivity |].
  destruct (contains c text); simpl; [reflexivity | exact IH].
Qed.

Lemma scan_keys_skip (text : str) (pre keys : list (list str)) :
  (forall g, In g pre -> group_occursb g text = false) ->
  scan_keys (Some text) (pre ++ keys) = scan_keys (Some text) keys.
Proof.
  induction pre as [|g pre IH]; intros Hpre; simpl; [reflexivity |].
  rewrite scan_tuple_text, (Hpre g (or_introl eq_refl)). simpl.
  apply IH. intros g' Hg'. apply Hpre. now right.
Qed.

Lemma scan_keys_hit (text : str) (key : list str)
    (keys : list (list str)) :
  group_occursb key text = true ->
  scan_keys (Some text) (key :: keys) =
  dict_getitem WEATHER_CONDITION_DICT key.
Proof.
  intros H. cbn [scan_keys]. rewrite scan_tuple_text, H.
  destruct (dict_getitem WEATHER_CONDITION_DICT key); reflexivity.
Qed.

Lemma parse_weather_condition_first (soup : Soup) (text : str)
    (pre post : condition_dict) (keywords : list str) (category : str) :
  summary soup = Some text ->
  WEATHER_CONDITION_DICT = pre ++ (keywords, category) :: post ->
  group_occurs keywords text ->
  (forall g, In g pre -> ~ group_occurs (fst g) text) ->
  parse_weather_condition soup = Ok category.
Proof.
  intros Hs HD Hk Hpre. unfold parse_weather_condition, dict_keys.
  rewrite Hs. rewrite HD at 1. rewrite map_app. simpl map.
  rewrite scan_keys_skip.
  - rewrite scan_keys_hit by now apply group_occursb_true.
    apply dict_getitem_listed. rewrite HD. apply in_elt.
  - intros g Hg. apply in_map_iff in Hg. destruct Hg as [p [<- Hp]].
    apply group_occursb_false. now apply Hpre.
Qed.

Lemma parse_weather_condition_none (soup : Soup) (text : str) :
  summary soup = Some text ->
  (forall g, In g WEATHER_CONDITION_DICT -> ~ group_occurs (fst g) text) ->
  parse_weather_condition soup = Ok text.
Proof.
  intros Hs Hno. unfold parse_weather_condition, dict_keys. rewrite Hs.
  rewrite <- (app_nil_r (map fst WEATHER_CONDITION_DICT)).
  rewrite scan_keys_skip; [reflexivity |].
  intros g Hg. apply in_map_iff in Hg. destruct Hg as [p [<- Hp]].
  apply group_occursb_false. now apply Hno.
Qed.

Lemma no_group_occurs_forallb (text : str) :
  forallb (fun g => negb (group_occursb (fst g) text))
    WEATHER_CONDITION_DICT = true ->
  forall g, In g WEATHER_CONDITION_DICT -> ~ group_occurs (fst g) text.
Proof.
  intros H g Hg. rewrite forallb_forall in H. specialize (H g Hg).
  apply group_occursb_false. now destruct (group_occursb (fst g) text).
Qed.

Lemma no_listed_keyword_forallb (text : str) :
  forallb (fun k => negb (contains k text)) listed_keywords = true <->
  (forall k, In k listed_keywords -> ~ occurs k text).
Proof.
  rewrite forallb_forall. split; intros H k Hk; specialize (H k Hk).
  - apply not_contains_occurs. now destruct (contains k text).
  - apply not_contains_occurs in H. now rewrite H.
Qed.

Lemma listed_keywords_groups (g : list str * str) (k : str) :
  In g WEATHER_CONDITION_DICT -> In k (fst g) -> In k listed_keywords.
Proof.
  intros Hg Hk. unfold listed_keywords, dict_keys. apply in_concat.
  exists (fst g). split; [now apply in_map | exact Hk].
Qed.

(** C2. The Condition Normalizer scans the groups of the table in their
    declaration order (Cloudy, Rainy, Snowy, Sunny) and returns the
    category of the first group one of whose keywords is a substring of
    the text; a text with keywords of exactly one group gets that group's
    category, and a text with no keyword at all is returned unchanged. *)
Theorem parse_weather_condition_first_match (soup : Soup) (text : str) :
  summary soup = Some text ->
  map snd WEATHER_CONDITION_DICT =
    [lit "Cloudy"; lit "Rainy"; lit "Snowy"; lit "Sunny"] /\
  (forall pre keywords category post,
      WEATHER_CONDITION_DICT = pre ++ (keywords, category) :: post ->
      group_occurs keywords text ->
      (forall g, In g pre -> ~ group_occurs (fst g) text) ->
      parse_weather_condition soup = Ok category) /\
  (forall keywords category,
      In (keywords, category) WEATHER_CONDITION_DICT ->
      group_occurs keywords text ->
      (forall g, In g WEATHER_CONDITION_DICT -> g <> (keywords, category) ->
                 ~ group_occurs (fst g) text) ->
      parse_weather_condition soup = Ok category) /\
  ((forall g, In g WEATHER_CONDITION_DICT -> ~ group_occurs (fst g) text) ->
   parse_weather_condition soup = Ok text).
Proof.
  intros Hs. split; [reflexivity |]. split; [| split].
  - intros pre keywords category post HD Hk Hpre.
    now apply (parse_weather_condition_first soup text pre post keywords).
  - intros keywords category Hin Hk Hothers.
    destruct (in_split _ _ Hin) as [pre [post HD]].
    apply (parse_weather_condition_first soup text pre post keywords);
      auto.
    intros g Hg. apply Hothers.
    + rewrite HD. apply in_or_app. now left.
    + intros ->. pose proof WEATHER_CONDITION_DICT_NoDup as Hnd.
      rewrite HD in Hnd. apply NoDup_remove_2 in Hnd. apply Hnd.
      apply in_or_app. now left.
  - now apply parse_weather_condition_none.
Qed.

Lemma parse_weather_condition_first_match_witness :
  parse_weather_condition (soup_with_summary (lit "Rain and overcast")) =
    Ok (lit "Cloudy") /\
  parse_weather_condition (soup_with_summary (lit "Light snow")) =
    Ok (lit "Snowy") /\
  parse_weather_condition (soup_with_summary (lit "Windy")) =
    Ok (lit "Windy").
Proof.
  split; [| split].
  - destruct (parse_weather_condition_first_match
                (soup_with_summary (lit "Rain and overcast")) _ eq_refl)
      as (_ & Hfirst & _ & _).
    apply (Hfirst [] _ _ _ eq_refl).
    + apply group_occursb_true. vm_compute. reflexivity.
    + intros g [].
  - destruct (parse_weather_condition_first_match
                (soup_with_summary (lit "Light snow")) _ eq_refl)
      as (_ & _ & Hone & _).
    apply (Hone [lit "Snow"; lit "snow"]).
    + right; right; left. reflexivity.
    + apply group_occursb_true. vm_compute. reflexivity.
    + intros g Hg Hne. apply group_occursb_false.
      destruct Hg as [<- | [<- | [<- | [<- | []]]]];
        try (vm_compute; reflexivity).
      exfalso. apply Hne. reflexivity.
  - destruct (parse_weather_condition_first_match
                (soup_with_summary (lit "Windy")) _ eq_refl)
      as (_ & _ & _ & Hnone).
    apply Hnone. apply no_group_occurs_forallb. vm_compute. reflexivity.
Defined.

(** C10. Matching is exact, case-sensitive substring matching against the
    listed keywords: a text in which a category word occurs only in a
    casing that the table does not list (no listed keyword occurs in it
    as written) is returned unchanged. *)
Theorem parse_weather_condition_case_sensitive (soup : Soup) (text : str) :
  summary soup = Some text ->
  (exists k, In k listed_keywords /\ occurs (lower k) (lower text)) ->
  (forall k, In k listed_keywords -> ~ occurs k text) ->
  parse_weather_condition soup = Ok text.
Proof.
  intros Hs _ Hno. apply parse_weather_condition_none; [exact Hs |].
  intros g Hg [k [Hk Hocc]]. apply (Hno k); [| exact Hocc].
  now apply (listed_keywords_groups g).
Qed.

Lemma parse_weather_condition_case_sensitive_witness :
  parse_weather_condition (soup_with_summary (lit "CLOUDY")) =
    Ok (lit "CLOUDY").
Proof.
  apply (parse_weather_condition_case_sensitive
           (soup_with_summary (lit "CLOUDY")) (lit "CLOUDY") eq_refl).
  - exists (lit "cloud"). split.
    + vm_compute. tauto.
    + apply contains_occurs. vm_compute. reflexivity.
  - apply no_listed_keyword_forallb. vm_compute. reflexivity.
Defined.

(** ** The Forecast Collector *)

Section Collector.

Variable requests_get : Datetime.date -> result Soup.

Lemma save_forecast_loop_stop (fuel : nat)
    (current_date end_date : Datetime.date) (weather_forecast : mapping)
    (fetched : list Datetime.date) :
  end_date < current_date ->
  save_forecast_loop requests_get fuel current_date end_date
    weather_forecast fetched = Some (Ok weather_forecast, fetched).
Proof.
  intros H. destruct fuel; simpl;
    (destruct (current_date <=? end_date) eqn:E;
     [apply Z.leb_le in E; lia | reflexivity]).
Qed.

Lemma add_one_day_Ok (d d' : Datetime.date) :
  Datetime.add_one_day d = Ok d' -> d' = d + 1.
Proof.
  unfold Datetime.add_one_day.
  destruct (d + 1 <=? Datetime.MAXORDINAL); congruence.
Qed.

Lemma add_one_day_before_max (d : Datetime.date) :
  d < Datetime.MAXORDINAL -> Datetime.add_one_day d = Ok (d + 1).
Proof.
  intros H. unfold Datetime.add_one_day.
  destruct (d + 1 <=? Datetime.MAXORDINAL) eqn:E; [reflexivity |].
  apply Z.leb_gt in E. lia.
Qed.

(** The loop never needs more iterations than the range has days. *)
Lemma save_forecast_loop_enough (fuel : nat) :
  forall (current_date end_date : Datetime.date)
         (weather_forecast : mapping) (fetched : list Datetime.date),
  (days_in_range current_date end_date <= fuel)%nat ->
  exists outcome,
    save_forecast_loop requests_get fuel current_date end_date
      weather_forecast fetched = Some outcome.
Proof.
  induction fuel as [|fuel IH]; intros cur last wf fetched Hfuel;
    unfold days_in_range in Hfuel.
  - simpl. destruct (cur <=? last) eqn:E; [| eauto].
    apply Z.leb_le in E. lia.
  - simpl. destruct (cur <=? last) eqn:E; [| eauto].
    apply Z.leb_le in E.
    destruct (collect_day requests_get cur wf) as [wf' | e]; [| eauto].
    destruct (Datetime.add_one_day cur) as [next | e] eqn:En; [| eauto].
    apply add_one_day_Ok in En. subst next.
    apply IH. unfold days_in_range. lia.
Qed.

(** [save_forecast] always comes to an outcome: a mapping or an
    exception. *)
Lemma save_forecast_total (self : WeatherMaker) :
  exists outcome, save_forecast requests_get self = Some outcome.
Proof. unfold save_forecast. apply save_forecast_loop_enough. lia. Qed.

Lemma save_forecast_single_day (d : Datetime.date) :
  save_forecast requests_get (WeatherMaker_init d d) =
  match collect_day requests_get d [] with
  | Raise e => Some (Raise e, [d])
  | Ok weather_forecast =>
      match Datetime.add_one_day d with
      | Raise e => Some (Raise e, [d])
      | Ok _ => Some (Ok weather_forecast, [d])
      end
  end.
Proof.
  unfold save_forecast, days_in_range. cbn [start_date end_date
    weather_forecast WeatherMaker_init].
  replace (Z.to_nat (d - d + 1)) with 1%nat by lia.
  cbn [save_forecast_loop]. rewrite Z.leb_refl. cbn [app].
  destruct (collect_day requests_get d []) as [wf | e]; [| reflexivity].
  destruct (Datetime.add_one_day d) as [next | e] eqn:En; [| reflexivity].
  apply add_one_day_Ok in En. subst next.
  destruct (d + 1 <=? d) eqn:E; [apply Z.leb_le in E; lia | reflexivity].
Qed.

Lemma collect_day_Ok (d : Datetime.date) (soup : Soup)
    (temperature condition wind : str) (weather_forecast : mapping) :
  requests_get d = Ok soup ->
  parse_temperature soup = Ok temperature ->
  parse_weather_condition soup = Ok condition ->
  parse_wind soup = Ok wind ->
  collect_day requests_get d weather_forecast =
  Ok (setitem weather_forecast d
        {| Date := d; Temperature := temperature;
           Weather_condition := condition; Wind := wind |}).
Proof.
  intros Hg Ht Hc Hw. unfold collect_day.
  rewrite Hg. cbn [bind]. rewrite Ht. cbn [bind]. rewrite Hc. cbn [bind].
  rewrite Hw. reflexivity.
Qed.

End Collector.

Lemma ymd2ord_examples :
  day_2021_06_01 = 737942 /\ day_2021_06_20 = day_2021_06_19 + 1 /\
  day_9999_12_31 = Datetime.MAXORDINAL.
Proof. vm_compute. auto. Qed.

(** C3, as the code has it.  For every pair of dates with start after
    end, [save_forecast] raises nothing: it makes no fetch and returns the
    empty mapping. *)
Theorem save_forecast_reversed_range
    (requests_get : Datetime.date -> result Soup)
    (start_date end_date : Datetime.date) :
  end_date < start_date ->
  save_forecast requests_get (WeatherMaker_init start_date end_date) =
  Some (Ok [], []).
Proof. intros H. unfold save_forecast. now apply save_forecast_loop_stop. Qed.

Lemma save_forecast_reversed_range_witness :
  day_2021_06_19 < day_2021_06_20 /\
  save_forecast (scenario_web (lit "15.0" ++ [DEGREE]))
    (WeatherMaker_init day_2021_06_20 day_2021_06_19) = Some (Ok [], []).
Proof.
  split; [vm_compute; reflexivity |].
  apply (save_forecast_reversed_range
           (scenario_web (lit "15.0" ++ [DEGREE]))
           day_2021_06_20 day_2021_06_19).
  vm_compute. reflexivity.
Defined.

(** C3, as stated, fails: on the range 2021-06-20 .. 2021-06-19 the
    collector returns normally, with an empty mapping, instead of
    raising. *)
Lemma save_forecast_reversed_range_no_error :
  day_2021_06_19 < day_2021_06_20 /\
  ~ (exists e fetched,
        save_forecast (scenario_web (lit "15.0" ++ [DEGREE]))
          (WeatherMaker_init day_2021_06_20 day_2021_06_19) =
        Some (Raise e, fetched)).
Proof.
  split; [vm_compute; reflexivity |].
  intros [e [fetched H]]. vm_compute in H. discriminate H.
Qed.

(** C8, as the code has it.  For every date, [save_forecast] on the range
    start = end = that date performs exactly one fetch, of that date; when
    the date is before [date.max] and its page is fetched and parsed
    without error, it returns a mapping with exactly one entry, keyed by
    that date. *)
Theorem save_forecast_single_date
    (requests_get : Datetime.date -> result Soup) (d : Datetime.date) :
  (exists outcome,
      save_forecast requests_get (WeatherMaker_init d d) =
      Some (outcome, [d])) /\
  (forall soup temperature condition wind,
      d < Datetime.MAXORDINAL ->
      requests_get d = Ok soup ->
      parse_temperature soup = Ok temperature ->
      parse_weather_condition soup = Ok condition ->
      parse_wind soup = Ok wind ->
      save_forecast requests_get (WeatherMaker_init d d) =
      Some (Ok [(d, {| Date := d; Temperature := temperature;
                       Weather_condition := condition; Wind := wind |})],
            [d])).
Proof.
  rewrite save_forecast_single_day. split.
  - destruct (collect_day requests_get d []); [| eauto].
    destruct (Datetime.add_one_day d); eauto.
  - intros soup t c w Hd Hg Ht Hc Hw.
    rewrite (collect_day_Ok requests_get d soup t c w [] Hg Ht Hc Hw).
    rewrite add_one_day_before_max by exact Hd. reflexivity.
Qed.

Lemma save_forecast_single_date_witness :
  save_forecast (scenario_web (lit "15.0" ++ [DEGREE]))
    (WeatherMaker_init day_2021_06_01 day_2021_06_01) =
  Some (Ok [(day_2021_06_01, scenario_record)], [day_2021_06_01]).
Proof.
  destruct (save_forecast_single_date
              (scenario_web (lit "15.0" ++ [DEGREE])) day_2021_06_01)
    as [_ H].
  apply (H (scenario_soup (lit "15.0" ++ [DEGREE]))
           (lit "15.0deg C") (lit "Cloudy") (lit "10 km/h    NW")).
  - vm_compute. reflexivity.
  - reflexivity.
  - vm_compute. reflexivity.
  - vm_compute. reflexivity.
  - vm_compute. reflexivity.
Defined.

(** C8, as stated, fails on the last date: for start = end = 9999-12-31
    the one fetch succeeds and the increment of the date then raises
    OverflowError, so that no mapping is returned. *)
Lemma save_forecast_single_date_max_raises :
  save_forecast (scenario_web (lit "15.0" ++ [DEGREE]))
    (WeatherMaker_init day_9999_12_31 day_9999_12_31) =
  Some (Raise OverflowError, [day_9999_12_31]).
Proof. vm_compute. reflexivity. Qed.

(** ** The Forecast Store *)

Lemma find_date_present (d : Datetime.date) (t : list Forecast.row) :
  has_date d t ->
  exists data, find (fun r => Forecast.date r =? d) t = Some data.
Proof.
  intros [r [Hin Hd]].
  destruct (find (fun r => Forecast.date r =? d) t) as [data |] eqn:E;
    [eauto |].
  pose proof (find_none _ _ E r Hin) as H. cbn beta in H.
  apply Z.eqb_neq in H. contradiction.
Qed.

Lemma find_date_absent (d : Datetime.date) (t : list Forecast.row) :
  ~ has_date d t -> find (fun r => Forecast.date r =? d) t = None.
Proof.
  intros Hno.
  destruct (find (fun r => Forecast.date r =? d) t) as [data |] eqn:E;
    [| reflexivity].
  apply find_some in E. destruct E as [Hin Hd]. apply Z.eqb_eq in Hd.
  exfalso. apply Hno. exists data. auto.
Qed.

Lemma has_date_dec (d : Datetime.date) (t : list Forecast.row) :
  has_date d t \/ ~ has_date d t.
Proof.
  destruct (find (fun r => Forecast.date r =? d) t) as [data |] eqn:E.
  - left. apply find_some in E. destruct E as [Hin Hd].
    apply Z.eqb_eq in Hd. exists data. auto.
  - right. intros [r [Hin Hd]]. pose proof (find_none _ _ E r Hin) as H.
    cbn beta in H. apply Z.eqb_neq in H. contradiction.
Qed.

(** On the branch where the date is already stored, the only statement
    is the lookup. *)
Lemma store_record_present (db : Database) (record : entry) :
  has_date (Date record) (rows db) ->
  store_record db record =
  execute (SELECT_first (Date record)) (rows db) db.
Proof.
  intros H. apply find_date_present in H. destruct H as [data E].
  unfold store_record, get_or_create. rewrite E. reflexivity.
Qed.

(** The update that follows an insertion rewrites the inserted row with
    the values it already has. *)
Lemma update_after_insert (t : list Forecast.row) (db : Database)
    (record : entry) :
  ~ has_date (Date record) t ->
  map (fun r =>
         if Forecast.date r =? Date record
         then {| Forecast.id := Forecast.id r;
                 Forecast.date := Forecast.date r;
                 Forecast.temperature := Temperature record;
                 Forecast.condition := Weather_condition record;
                 Forecast.wind := Wind record |}
         else r) (t ++ [inserted_row db record]) =
  t ++ [inserted_row db record].
Proof.
  intros Hno. rewrite map_app. f_equal.
  - rewrite <- (map_id t) at 2. apply map_ext_in. intros r Hr.
    destruct (Forecast.date r =? Date record) eqn:E; [| reflexivity].
    apply Z.eqb_eq in E. exfalso. apply Hno. exists r. auto.
  - cbn [map inserted_row Forecast.date Forecast.id]. rewrite Z.eqb_refl.
    reflexivity.
Qed.

Lemma store_record_absent (db : Database) (record : entry) :
  ~ has_date (Date record) (rows db) ->
  store_record db record =
  {| rows := rows db ++ [inserted_row db record];
     executed := executed db ++
       [SELECT_first (Date record)] ++
       [INSERT (inserted_row db record)] ++
       [UPDATE (Date record) (Temperature record)
          (Weather_condition record) (Wind record)] |}.
Proof.
  intros Hno. pose proof (find_date_absent _ _ Hno) as E.
  unfold store_record, get_or_create. rewrite E.
  unfold update_where_date, execute. cbn [rows executed].
  fold (inserted_row db record).
  rewrite (update_after_insert (rows db) db record Hno).
  rewrite <- !app_assoc. reflexivity.
Qed.

(** No call modifies or removes a row: it can only add one at the end. *)
Lemma store_record_rows (db : Database) (record : entry) :
  exists added, rows (store_record db record) = rows db ++ added.
Proof.
  destruct (has_date_dec (Date record) (rows db)) as [H | H].
  - rewrite store_record_present by exact H. exists []. cbn.
    now rewrite app_nil_r.
  - rewrite store_record_absent by exact H. eexists. reflexivity.
Qed.

Lemma store_records_rows (records : list entry) :
  forall db, exists added,
    rows (fold_left store_record records db) = rows db ++ added.
Proof.
  induction records as [|record records IH]; intros db; cbn [fold_left].
  - exists []. now rewrite app_nil_r.
  - destruct (IH (store_record db record)) as [added2 H2].
    destruct (store_record_rows db record) as [added1 H1].
    exists (added1 ++ added2). rewrite H2, H1. now rewrite app_assoc.
Qed.

Lemma has_date_after_store (db : Database) (record : entry) :
  has_date (Date record) (rows (store_record db record)).
Proof.
  destruct (has_date_dec (Date record) (rows db)) as [H | H].
  - rewrite store_record_present by exact H. exact H.
  - rewrite store_record_absent by exact H. cbn [rows].
    exists (inserted_row db record). split; [| reflexivity].
    apply in_or_app. right. now left.
Qed.

(** A second call with the same record changes no row. *)
Lemma store_record_twice_rows (db : Database) (record : entry) :
  rows (store_record (store_record db record) record) =
  rows (store_record db record).
Proof.
  rewrite (store_record_present (store_record db record)); [reflexivity |].
  apply has_date_after_store.
Qed.

(** Storing a record keeps the dates of the table distinct. *)
Lemma store_record_unique_dates (db : Database) (record : entry) :
  unique_dates (rows db) -> unique_dates (rows (store_record db record)).
Proof.
  unfold unique_dates. intros Hu.
  destruct (has_date_dec (Date record) (rows db)) as [H | H].
  - rewrite store_record_present by exact H. exact Hu.
  - rewrite store_record_absent by exact H. cbn [rows].
    rewrite map_app. apply NoDup_app; [exact Hu | |].
    + cbn. constructor; [intros [] | constructor].
    + intros d Hd [Hd' | []]. cbn in Hd'. subst d.
      apply in_map_iff in Hd. destruct Hd as [r [Hr Hin]].
      apply H. exists r. auto.
Qed.

Lemma store_records_unique_dates (records : list entry) :
  forall db, unique_dates (rows db) ->
    unique_dates (rows (fold_left store_record records db)).
Proof.
  induction records as [|record records IH]; intros db Hu; cbn [fold_left].
  - exact Hu.
  - apply IH. now apply store_record_unique_dates.
Qed.

(** C4. When the date of the record is already stored, [store_forecast]
    leaves the stored rows as they are, fields included: the only
    statement it runs for the record is the lookup.  The field update runs
    only on the branch where a row was just inserted, and no sequence of
    records ever changes a row that was there before. *)
Theorem store_record_keeps_existing (db : Database) (record : entry) :
  (has_date (Date record) (rows db) ->
   rows (store_record db record) = rows db /\
   executed (store_record db record) =
     executed db ++ [SELECT_first (Date record)]) /\
  (forall new,
      executed (store_record db record) = executed db ++ new ->
      (exists d t c w, In (UPDATE d t c w) new) ->
      ~ has_date (Date record) (rows db) /\
      In (INSERT (inserted_row db record)) new) /\
  (forall records, exists added,
      rows (fold_left store_record records db) = rows db ++ added).
Proof.
  split; [| split].
  - intros H. rewrite store_record_present by exact H. split; reflexivity.
  - intros new Hnew [d [t [c [w Hin]]]].
    destruct (has_date_dec (Date record) (rows db)) as [H | H].
    + rewrite store_record_present in Hnew by exact H.
      cbn [executed execute] in Hnew. apply app_inv_head in Hnew.
      subst new. destruct Hin as [Hin | []]. discriminate Hin.
    + split; [exact H |]. rewrite store_record_absent in Hnew by exact H.
      cbn [executed] in Hnew. apply app_inv_head in Hnew. subst new.
      right. left. reflexivity.
  - intros records. apply store_records_rows.
Qed.

Lemma store_record_keeps_existing_witness :
  rows (store_record stale_db scenario_record) = [stale_row] /\
  executed (store_record stale_db scenario_record) =
    [SELECT_first day_2021_06_01].
Proof.
  destruct (store_record_keeps_existing stale_db scenario_record)
    as [H _].
  apply H. exists stale_row. split; [left; reflexivity | reflexivity].
Defined.

(** ** Queries *)

Lemma insert_by_date_perm (r : Forecast.row) (l : list Forecast.row) :
  Permutation (insert_by_date r l) (r :: l).
Proof.
  induction l as [|x l IH]; cbn [insert_by_date]; [reflexivity |].
  destruct (Forecast.date r <=? Forecast.date x); [reflexivity |].
  rewrite IH. apply perm_swap.
Qed.

Lemma order_by_date_perm (l : list Forecast.row) :
  Permutation (order_by_date l) l.
Proof.
  induction l as [|x l IH]; cbn; [reflexivity |].
  fold (order_by_date l). rewrite insert_by_date_perm. now constructor.
Qed.

Lemma insert_by_date_ascending (r : Forecast.row)
    (l : list Forecast.row) :
  ascending_by_date l -> ascending_by_date (insert_by_date r l).
Proof.
  unfold ascending_by_date.
  induction l as [|x l IH]; intros Hl; cbn [insert_by_date].
  - constructor; constructor.
  - apply StronglySorted_inv in Hl. destruct Hl as [Hl Hx].
    destruct (Forecast.date r <=? Forecast.date x) eqn:E.
    + apply Z.leb_le in E. constructor.
      * constructor; assumption.
      * constructor; [exact E |].
        eapply Forall_impl; [| exact Hx]. cbn. intros; lia.
    + apply Z.leb_gt in E. constructor; [now apply IH |].
      eapply Permutation_Forall.
      * symmetry. apply insert_by_date_perm.
      * constructor; [lia | exact Hx].
Qed.

Lemma order_by_date_ascending (l : list Forecast.row) :
  ascending_by_date (order_by_date l).
Proof.
  induction l as [|x l IH]; cbn.
  - constructor.
  - apply insert_by_date_ascending. exact IH.
Qed.

Lemma between_spec (start_date end_date : Datetime.date)
    (r : Forecast.row) :
  between start_date end_date r = true <->
  start_date <= Forecast.date r <= end_date.
Proof.
  unfold between. rewrite andb_true_iff, !Z.leb_le. tauto.
Qed.

Lemma filter_between_reversed (start_date end_date : Datetime.date)
    (t : list Forecast.row) :
  end_date < start_date -> filter (between start_date end_date) t = [].
Proof.
  intros H. induction t as [|r t IH]; cbn; [reflexivity |].
  destruct (between start_date end_date r) eqn:E; [| exact IH].
  apply between_spec in E. lia.
Qed.

(** C7.  [get_forecast] returns exactly the stored rows whose date lies
    between the two dates, bounds included, in ascending order of date,
    and leaves the table as it is; when start is after end the result is
    the empty sequence, not an error. *)
Theorem get_forecast_between_ordered (db : Database)
    (start_date end_date : Datetime.date) :
  Permutation (fst (get_forecast db start_date end_date))
    (filter (between start_date end_date) (rows db)) /\
  (forall r, In r (fst (get_forecast db start_date end_date)) <->
             In r (rows db) /\
             start_date <= Forecast.date r <= end_date) /\
  ascending_by_date (fst (get_forecast db start_date end_date)) /\
  rows (snd (get_forecast db start_date end_date)) = rows db /\
  (end_date < start_date ->
   fst (get_forecast db start_date end_date) = []).
Proof.
  cbn [get_forecast fst snd]. split; [| split; [| split; [| split]]].
  - apply order_by_date_perm.
  - intros r. rewrite <- between_spec, <- filter_In. split; intros Hr.
    + apply (Permutation_in _ (order_by_date_perm _)). exact Hr.
    + apply (Permutation_in _ (Permutation_sym (order_by_date_perm _))).
      exact Hr.
  - apply order_by_date_ascending.
  - reflexivity.
  - intros Hrev. rewrite filter_between_reversed by exact Hrev.
    reflexivity.
Qed.

Lemma get_forecast_between_ordered_witness :
  day_2021_06_19 < day_2021_06_20 /\
  fst (get_forecast populated_db day_2021_06_20 day_2021_06_19) = [].
Proof.
  split; [vm_compute; reflexivity |].
  destruct (get_forecast_between_ordered populated_db
              day_2021_06_20 day_2021_06_19) as (_ & _ & _ & _ & H).
  apply H. vm_compute. reflexivity.
Defined.

Example get_forecast_populated :
  map Forecast.date
    (fst (get_forecast populated_db day_2021_06_01 day_2021_06_19)) =
  [day_2021_06_01; day_2021_06_19].
Proof. vm_compute. reflexivity. Qed.

(** ** Storing, then querying *)

Lemma rows_of_date_absent (d : Datetime.date) (t : list Forecast.row) :
  ~ has_date d t -> rows_of_date d t = [].
Proof.
  intros Hno. unfold rows_of_date. induction t as [|r t IH]; cbn.
  - reflexivity.
  - destruct (Forecast.date r =? d) eqn:E.
    + apply Z.eqb_eq in E. exfalso. apply Hno. exists r. split; auto.
      now left.
    + apply IH. intros [r' [Hin Hr']]. apply Hno. exists r'. split; auto.
      now right.
Qed.

Lemma between_same_date (d : Datetime.date) (r : Forecast.row) :
  between d d r = (Forecast.date r =? d).
Proof.
  unfold between.
  destruct (Forecast.date r =? d) eqn:E.
  - apply Z.eqb_eq in E. rewrite E, Z.leb_refl. reflexivity.
  - apply Z.eqb_neq in E. apply andb_false_iff.
    destruct (d <=? Forecast.date r) eqn:E1; [right | now left].
    apply Z.leb_le in E1. apply Z.leb_gt. lia.
Qed.

Lemma filter_between_same_date (d : Datetime.date)
    (t : list Forecast.row) :
  filter (between d d) t = rows_of_date d t.
Proof.
  unfold rows_of_date. apply filter_ext. intros r.
  apply between_same_date.
Qed.

(** The insert branch: a record whose date is not stored yet becomes a
    new row with its values, and a query for its date returns it alone. *)
Lemma store_record_new_then_query (db : Database) (record : entry) :
  ~ has_date (Date record) (rows db) ->
  rows (store_record db record) = rows db ++ [inserted_row db record] /\
  map entry_of_row
    (fst (get_forecast (store_record db record)
            (Date record) (Date record))) = [record].
Proof.
  intros Hno. rewrite store_record_absent by exact Hno.
  split; [reflexivity |].
  cbn [get_forecast fst rows]. rewrite filter_between_same_date.
  unfold rows_of_date. rewrite filter_app.
  fold (rows_of_date (Date record) (rows db)).
  rewrite (rows_of_date_absent _ _ Hno).
  cbn [filter inserted_row Forecast.date app]. rewrite Z.eqb_refl.
  destruct record; reflexivity.
Qed.

Lemma save_forecast_single_day_Ok
    (requests_get : Datetime.date -> result Soup) (d : Datetime.date)
    (soup : Soup) (temperature condition wind : str) :
  d < Datetime.MAXORDINAL ->
  requests_get d = Ok soup ->
  parse_temperature soup = Ok temperature ->
  parse_weather_condition soup = Ok condition ->
  parse_wind soup = Ok wind ->
  save_forecast requests_get (WeatherMaker_init d d) =
  Some (Ok [(d, {| Date := d; Temperature := temperature;
                   Weather_condition := condition; Wind := wind |})], [d]).
Proof.
  intros Hd Hg Ht Hc Hw. rewrite save_forecast_single_day.
  rewrite (collect_day_Ok requests_get d soup temperature condition wind
             [] Hg Ht Hc Hw).
  rewrite add_one_day_before_max by exact Hd. reflexivity.
Qed.

(** C1, on a date that is already stored.  The page of 2021-06-01 gives
    15.0deg C, Cloudy, 10 km/h NW; the table holds a row of that date
    with 10.0deg C, Sunny, 5 km/h N.  After [store_forecast] the row still
    has the old values, and the only statement that ran is the lookup:
    the fields are not replaced. *)
Theorem store_forecast_existing_not_replaced :
  store_forecast (scenario_web (lit "15.0" ++ [DEGREE])) stale_db
    day_2021_06_01 day_2021_06_01 =
  Some (Ok {| rows := [stale_row];
              executed := [SELECT_first day_2021_06_01] |},
        [day_2021_06_01]) /\
  save_forecast (scenario_web (lit "15.0" ++ [DEGREE]))
    (WeatherMaker_init day_2021_06_01 day_2021_06_01) =
  Some (Ok [(day_2021_06_01, scenario_record)], [day_2021_06_01]) /\
  Forecast.temperature stale_row = lit "10.0deg C" /\
  Temperature scenario_record = lit "15.0deg C" /\
  entry_of_row stale_row <> scenario_record.
Proof.
  repeat split; try (vm_compute; reflexivity).
  intros H. vm_compute in H. discriminate H.
Qed.

(** C5, on a date that is already stored.  Storing the record of
    2021-06-01 over the older row of that date and then querying that date
    returns the older row, not the record that was stored. *)
Theorem store_then_query_returns_old :
  map entry_of_row
    (fst (get_forecast (store_record stale_db scenario_record)
            (Date scenario_record) (Date scenario_record))) =
  [entry_of_row stale_row] /\
  [entry_of_row stale_row] <> [scenario_record].
Proof.
  split; [vm_compute; reflexivity |].
  intros H. vm_compute in H. discriminate H.
Qed.

(** C6, on a date that is already stored.  Storing the record of
    2021-06-01 twice over the older row of that date leaves exactly one
    row for the date, and that row holds the older values, not the latest
    ones. *)
Theorem store_twice_keeps_old_values :
  rows_of_date (Date scenario_record)
    (rows (store_record (store_record stale_db scenario_record)
             scenario_record)) = [stale_row] /\
  entry_of_row stale_row <> scenario_record.
Proof.
  split; [vm_compute; reflexivity |].
  intros H. vm_compute in H. discriminate H.
Qed.

(** ** The scenario of 2021-06-01 *)

Lemma parse_wind_scenario (temperature_text : str) :
  parse_wind (scenario_soup temperature_text) = Ok (lit "10 km/h    NW").
Proof. reflexivity. Qed.

Lemma parse_weather_condition_scenario (temperature_text : str) :
  parse_weather_condition (scenario_soup temperature_text) =
  Ok (lit "Cloudy").
Proof. vm_compute. reflexivity. Qed.

Lemma parse_temperature_scenario (numeric : str) (unit_symbol : char) :
  parse_temperature (scenario_soup (numeric ++ [unit_symbol])) =
  Ok (numeric ++ lit "deg C").
Proof.
  unfold parse_temperature. cbn [scenario_soup temperature_div attr_of bind].
  rewrite drop_last_snoc. reflexivity.
Qed.

(** C9, as the code has it.  For the day 2021-06-01: a temperature text
    made of "15.0" and one trailing unit character is stored as
    "15.0deg C"; the condition text "Partly cloudy skies" is stored as
    "Cloudy"; the wind force "10", unit "km/h" and direction title "NW"
    are stored as "10 km/h    NW".  Stored: the record of the day in the
    mapping of the collector and, when the table has no row of that day,
    the row that [store_forecast] adds. *)
Theorem scenario_2021_06_01_formatting (unit_symbol : char)
    (requests_get : Datetime.date -> result Soup) (db : Database) :
  parse_temperature (scenario_soup (lit "15.0" ++ [unit_symbol])) =
    Ok (lit "15.0deg C") /\
  parse_weather_condition (scenario_soup (lit "15.0" ++ [unit_symbol])) =
    Ok (lit "Cloudy") /\
  parse_wind (scenario_soup (lit "15.0" ++ [unit_symbol])) =
    Ok (lit "10 km/h    NW") /\
  (requests_get day_2021_06_01 =
     Ok (scenario_soup (lit "15.0" ++ [unit_symbol])) ->
   save_forecast requests_get
     (WeatherMaker_init day_2021_06_01 day_2021_06_01) =
   Some (Ok [(day_2021_06_01, scenario_record)], [day_2021_06_01]) /\
   (~ has_date day_2021_06_01 (rows db) ->
    exists db',
      store_forecast requests_get db day_2021_06_01 day_2021_06_01 =
        Some (Ok db', [day_2021_06_01]) /\
      rows db' = rows db ++ [inserted_row db scenario_record] /\
      map entry_of_row (rows_of_date day_2021_06_01 (rows db')) =
        [scenario_record])).
Proof.
  split; [apply (parse_temperature_scenario (lit "15.0")) |].
  split; [apply parse_weather_condition_scenario |].
  split; [apply parse_wind_scenario |].
  intros Hg.
  assert (Hsave : save_forecast requests_get
            (WeatherMaker_init day_2021_06_01 day_2021_06_01) =
          Some (Ok [(day_2021_06_01, scenario_record)], [day_2021_06_01])).
  { apply (save_forecast_single_day_Ok requests_get day_2021_06_01
             (scenario_soup (lit "15.0" ++ [unit_symbol]))).
    - vm_compute. reflexivity.
    - exact Hg.
    - apply (parse_temperature_scenario (lit "15.0")).
    - apply parse_weather_condition_scenario.
    - apply parse_wind_scenario. }
  split; [exact Hsave |].
  intros Hno. unfold store_forecast. rewrite Hsave.
  cbn [values map snd fold_left].
  change day_2021_06_01 with (Date scenario_record) in Hno.
  destruct (store_record_new_then_query db scenario_record Hno)
    as [Hrows Hquery].
  eexists. split; [reflexivity |]. split; [exact Hrows |].
  cbn [get_forecast fst] in Hquery.
  rewrite filter_between_same_date in Hquery.
  rewrite Hrows.
  change day_2021_06_01 with (Date scenario_record).
  rewrite store_record_absent in Hquery by exact Hno.
  cbn [rows] in Hquery.
  unfold rows_of_date in *. rewrite filter_app in *.
  fold (rows_of_date (Date scenario_record) (rows db)) in *.
  rewrite (rows_of_date_absent _ _ Hno) in *.
  cbn [app filter inserted_row Forecast.date]. rewrite Z.eqb_refl.
  reflexivity.
Qed.

Lemma scenario_2021_06_01_formatting_witness :
  exists db',
    store_forecast (scenario_web (lit "15.0" ++ [DEGREE])) empty_db
      day_2021_06_01 day_2021_06_01 = Some (Ok db', [day_2021_06_01]) /\
    rows db' = [inserted_row empty_db scenario_record] /\
    map entry_of_row (rows_of_date day_2021_06_01 (rows db')) =
      [scenario_record].
Proof.
  destruct (scenario_2021_06_01_formatting DEGREE
              (scenario_web (lit "15.0" ++ [DEGREE])) empty_db)
    as (_ & _ & _ & H).
  destruct (H eq_refl) as [_ Hstore].
  apply Hstore. intros [r [[] _]].
Defined.

(** C9, as stated, fails on the temperature: the parser drops the last
    character of the text it extracts, so that the text "15.0" is stored
    as "15.deg C". *)
Lemma parse_temperature_drops_last_digit :
  parse_temperature (scenario_soup (lit "15.0")) = Ok (lit "15.deg C") /\
  parse_temperature (scenario_soup (lit "15.0")) <> Ok (lit "15.0deg C").
Proof.
  split; [vm_compute; reflexivity |].
  intros H. vm_compute in H. discriminate H.
Qed.

(** * Further properties *)

(** ** Ranges of dates *)

Lemma date_range_S (cur : Datetime.date) (k : nat) :
  date_range cur (S k) = cur :: date_range (cur + 1) k.
Proof.
  unfold date_range. cbn [seq map]. f_equal; [cbn; lia |].
  rewrite <- seq_shift, map_map. apply map_ext. intros i. lia.
Qed.

Lemma date_range_1 (cur : Datetime.date) : date_range cur 1 = [cur].
Proof. unfold date_range. cbn. now rewrite Z.add_0_r. Qed.

Lemma date_range_snoc (cur : Datetime.date) (k : nat) :
  date_range cur (S k) = date_range cur k ++ [cur + Z.of_nat k].
Proof. unfold date_range. rewrite seq_S, map_app. reflexivity. Qed.

Lemma date_range_In (cur d : Datetime.date) (k : nat) :
  In d (date_range cur k) <-> cur <= d < cur + Z.of_nat k.
Proof.
  unfold date_range. rewrite in_map_iff. split.
  - intros [i [<- Hi]]. apply in_seq in Hi. lia.
  - intros H. exists (Z.to_nat (d - cur)). split; [lia |].
    apply in_seq. lia.
Qed.

Lemma date_range_length (cur : Datetime.date) (k : nat) :
  List.length (date_range cur k) = k.
Proof. unfold date_range. now rewrite length_map, length_seq. Qed.

Lemma date_range_NoDup (cur : Datetime.date) (k : nat) :
  NoDup (date_range cur k).
Proof.
  revert cur. induction k as [|k IH]; intros cur.
  - constructor.
  - rewrite date_range_S. constructor; [| apply IH].
    rewrite date_range_In. lia.
Qed.

Lemma days_in_range_S (cur last : Datetime.date) :
  cur <= last -> days_in_range cur last = S (days_in_range (cur + 1) last).
Proof. unfold days_in_range. lia. Qed.

Lemma days_in_range_0 (cur last : Datetime.date) :
  last < cur -> days_in_range cur last = 0%nat.
Proof. unfold days_in_range. lia. Qed.

(** ** The loop of the collector, day by day *)

Section Loop.

Variable requests_get : Datetime.date -> result Soup.

Lemma collect_day_forecast (d : Datetime.date) (wf : mapping) :
  collect_day requests_get d wf =
  match forecast_of_day requests_get d with
  | Ok e => Ok (setitem wf d e)
  | Raise ex => Raise ex
  end.
Proof.
  unfold collect_day, forecast_of_day.
  destruct (requests_get d) as [soup | ex]; cbn [bind]; [| reflexivity].
  destruct (parse_temperature soup); cbn [bind]; [| reflexivity].
  destruct (parse_weather_condition soup); cbn [bind]; [| reflexivity].
  destruct (parse_wind soup); reflexivity.
Qed.

(** What an outcome of the loop tells: the dates fetched are the first
    [k] days from the current one; on success every day of the range was
    collected; an exception comes from the last day fetched, either from
    its collection or from the increment of the date. *)
Lemma save_forecast_loop_run (fuel : nat) :
  forall (cur last : Datetime.date) (wf : mapping)
         (fetched fetched' : list Datetime.date)
         (out : result mapping),
  save_forecast_loop requests_get fuel cur last wf fetched =
    Some (out, fetched') ->
  exists k entries,
    fetched' = fetched ++ date_range cur k /\
    (k <= days_in_range cur last)%nat /\
    match out with
    | Ok m =>
        k = days_in_range cur last /\
        collected requests_get (date_range cur k) entries /\
        m = assign_all wf (combine (date_range cur k) entries) /\
        (k <> 0%nat -> last < Datetime.MAXORDINAL)
    | Raise ex =>
        exists j, k = S j /\
          collected requests_get (date_range cur j) entries /\
          (forecast_of_day requests_get (cur + Z.of_nat j) = Raise ex \/
           (exists e, forecast_of_day requests_get (cur + Z.of_nat j) = Ok e)
           /\ Datetime.MAXORDINAL <= cur + Z.of_nat j
           /\ ex = OverflowError)
    end.
Proof.
  induction fuel as [|fuel IH]; intros cur last wf fetched fetched' out;
    cbn [save_forecast_loop]; destruct (cur <=? last) eqn:E.
  - discriminate.
  - apply Z.leb_gt in E. intros H. injection H as <- <-.
    exists 0%nat, []. rewrite (days_in_range_0 _ _ E). cbn.
    rewrite app_nil_r. repeat split; try constructor. congruence.
  - apply Z.leb_le in E. rewrite collect_day_forecast.
    destruct (forecast_of_day requests_get cur) as [e | ex] eqn:Eday.
    + destruct (Datetime.add_one_day cur) as [next | ex] eqn:Enext.
      * apply add_one_day_Ok in Enext as Hnext. subst next. intros H.
        apply IH in H. destruct H as [k [entries [Hf [Hk Hout]]]].
        exists (S k), (e :: entries). rewrite date_range_S.
        rewrite (days_in_range_S _ _ E).
        split; [rewrite Hf, <- app_assoc; reflexivity |].
        split; [lia |].
        destruct out as [m | ex].
        -- destruct Hout as [Hk' [Hc [Hm Hmax]]].
           split; [congruence |]. split; [constructor; assumption |].
           split; [exact Hm |]. intros _.
           unfold Datetime.add_one_day in Enext.
           destruct (cur + 1 <=? Datetime.MAXORDINAL) eqn:E1;
             [| discriminate].
           apply Z.leb_le in E1. destruct k as [|k].
           ++ unfold days_in_range in Hk'. lia.
           ++ apply Hmax. discriminate.
        -- destruct Hout as [j [Hj [Hc Hlast]]].
           exists (S j). rewrite date_range_S.
           split; [congruence |]. split; [constructor; assumption |].
           replace (cur + Z.of_nat (S j)) with (cur + 1 + Z.of_nat j)
             by lia.
           exact Hlast.
      * intros H. injection H as <- <-. exists 1%nat, [].
        split; [rewrite date_range_1; reflexivity |].
        split; [rewrite (days_in_range_S _ _ E); lia |].
        exists 0%nat. split; [reflexivity |]. split; [constructor |].
        right. rewrite Z.add_0_r.
        unfold Datetime.add_one_day in Enext.
        destruct (cur + 1 <=? Datetime.MAXORDINAL) eqn:E1;
          [discriminate |].
        apply Z.leb_gt in E1. injection Enext as <-.
        split; [eauto |]. split; [lia | reflexivity].
    + intros H. injection H as <- <-. exists 1%nat, [].
      split; [rewrite date_range_1; reflexivity |].
      split; [rewrite (days_in_range_S _ _ E); lia |].
      exists 0%nat. split; [reflexivity |]. split; [constructor |].
      left. rewrite Z.add_0_r. exact Eday.
  - apply Z.leb_gt in E. intros H. injection H as <- <-.
    exists 0%nat, []. rewrite (days_in_range_0 _ _ E). cbn.
    rewrite app_nil_r. repeat split; try constructor. congruence.
Qed.

End Loop.

Lemma collected_In (requests_get : Datetime.date -> result Soup)
    (days : list Datetime.date) (entries : list entry) (d : Datetime.date) :
  collected requests_get days entries -> In d days ->
  exists e, forecast_of_day requests_get d = Ok e.
Proof.
  unfold collected. induction 1 as [|d' e days entries Hd _ IH]; cbn.
  - intros [].
  - intros [<- | Hin]; [eauto | auto].
Qed.

Lemma collected_length (requests_get : Datetime.date -> result Soup)
    (days : list Datetime.date) (entries : list entry) :
  collected requests_get days entries ->
  List.length entries = List.length days.
Proof. intros H. symmetry. exact (Forall2_length H). Qed.

Lemma collected_combine (requests_get : Datetime.date -> result Soup)
    (days : list Datetime.date) (entries : list entry) :
  collected requests_get days entries ->
  forall d e, In (d, e) (combine days entries) ->
              forecast_of_day requests_get d = Ok e.
Proof.
  unfold collected. induction 1 as [|d' e' days entries Hd _ IH]; cbn.
  - intros d e [].
  - intros d e [H | H]; [congruence | auto].
Qed.

Lemma forecast_of_day_Date (requests_get : Datetime.date -> result Soup)
    (d : Datetime.date) (e : entry) :
  forecast_of_day requests_get d = Ok e -> Date e = d.
Proof.
  unfold forecast_of_day.
  destruct (requests_get d) as [soup |]; cbn [bind]; [| discriminate].
  destruct (parse_temperature soup); cbn [bind]; [| discriminate].
  destruct (parse_weather_condition soup); cbn [bind]; [| discriminate].
  destruct (parse_wind soup); cbn [bind]; [| discriminate].
  intros H. injection H as <-. reflexivity.
Qed.

Lemma setitem_fresh (m : mapping) (k : Datetime.date) (v : entry) :
  ~ In k (map fst m) -> setitem m k v = m ++ [(k, v)].
Proof.
  induction m as [|[k' v'] m IH]; cbn; intros Hk; [reflexivity |].
  destruct (k' =? k) eqn:E.
  - apply Z.eqb_eq in E. exfalso. apply Hk. now left.
  - rewrite IH; [reflexivity |]. intros H. apply Hk. now right.
Qed.

(** On a mapping whose keys are all earlier, the assignments of
    consecutive later days append one entry each. *)
Lemma assign_all_fresh (k : nat) :
  forall (cur : Datetime.date) (entries : list entry) (wf : mapping),
  (forall key, In key (map fst wf) -> key < cur) ->
  assign_all wf (combine (date_range cur k) entries) =
  wf ++ combine (date_range cur k) entries.
Proof.
  unfold assign_all.
  induction k as [|k IH]; intros cur entries wf Hkeys.
  - cbn. now rewrite app_nil_r.
  - rewrite date_range_S. destruct entries as [|e entries].
    + cbn. now rewrite app_nil_r.
    + cbn [combine fold_left fst snd].
      rewrite setitem_fresh.
      * rewrite IH.
        -- rewrite <- app_assoc. reflexivity.
        -- intros key Hin. rewrite map_app in Hin.
           apply in_app_or in Hin. destruct Hin as [Hin | [<- | []]].
           ++ apply Hkeys in Hin. lia.
           ++ cbn. lia.
      * intros Hin. apply Hkeys in Hin. lia.
Qed.

Lemma map_fst_combine (days : list Datetime.date) (entries : list entry) :
  List.length entries = List.length days ->
  map fst (combine days entries) = days.
Proof.
  revert entries. induction days as [|d days IH]; intros [|e entries];
    cbn; try discriminate; auto.
  intros H. f_equal. apply IH. lia.
Qed.

Lemma map_snd_combine (days : list Datetime.date) (entries : list entry) :
  List.length entries = List.length days ->
  map snd (combine days entries) = entries.
Proof.
  revert entries. induction days as [|d days IH]; intros [|e entries];
    cbn; try discriminate; auto.
  intros H. f_equal. apply IH. lia.
Qed.

(** The mapping a new [WeatherMaker] returns: the days of the range, in
    order, each with the record collected for it. *)
Lemma save_forecast_Ok_inv (requests_get : Datetime.date -> result Soup)
    (from_date to_date : Datetime.date) (m : mapping)
    (fetched : list Datetime.date) :
  save_forecast requests_get (WeatherMaker_init from_date to_date) =
    Some (Ok m, fetched) ->
  exists entries,
    collected requests_get
      (date_range from_date (days_in_range from_date to_date)) entries /\
    m = combine (date_range from_date (days_in_range from_date to_date))
          entries /\
    fetched = date_range from_date (days_in_range from_date to_date) /\
    (from_date <= to_date -> to_date < Datetime.MAXORDINAL).
Proof.
  unfold save_forecast. cbn [start_date end_date weather_forecast
    WeatherMaker_init]. intros H. apply save_forecast_loop_run in H.
  destruct H as [k [entries [Hf [_ [Hk [Hc [Hm Hmax]]]]]]]. subst k.
  exists entries. split; [exact Hc |]. split.
  - rewrite Hm. rewrite assign_all_fresh; [reflexivity |]. intros key [].
  - split; [exact Hf |]. intros Hle. apply Hmax.
    unfold days_in_range. lia.
Qed.

(** X1. Whatever the pages are, the dates [save_forecast] fetches are the
    first days of the range, in ascending order and one fetch each; when
    it returns a mapping every day of the range was fetched, and when it
    raises at least one fetch was made. *)
Theorem save_forecast_fetches_in_order
    (requests_get : Datetime.date -> result Soup) (self : WeatherMaker)
    (out : result mapping) (fetched : list Datetime.date) :
  save_forecast requests_get self = Some (out, fetched) ->
  exists k,
    (k <= days_in_range (start_date self) (end_date self))%nat /\
    fetched = date_range (start_date self) k /\
    (forall m, out = Ok m ->
               k = days_in_range (start_date self) (end_date self)) /\
    (forall ex, out = Raise ex -> k <> 0%nat).
Proof.
  unfold save_forecast. intros H. apply save_forecast_loop_run in H.
  destruct H as [k [entries [Hf [Hk Hout]]]]. exists k.
  split; [exact Hk |]. split; [exact Hf |]. split.
  - intros m ->. tauto.
  - intros ex ->. destruct Hout as [j [-> _]]. discriminate.
Qed.

Lemma save_forecast_fetches_in_order_witness :
  save_forecast (broken_from (day_2021_06_01 + 2))
    (WeatherMaker_init day_2021_06_01 day_2021_06_20) =
  Some (Raise AttributeError,
        [day_2021_06_01; day_2021_06_01 + 1; day_2021_06_01 + 2]) /\
  exists k,
    (k <= days_in_range day_2021_06_01 day_2021_06_20)%nat /\
    [day_2021_06_01; day_2021_06_01 + 1; day_2021_06_01 + 2] =
      date_range day_2021_06_01 k.
Proof.
  assert (H : save_forecast (broken_from (day_2021_06_01 + 2))
                (WeatherMaker_init day_2021_06_01 day_2021_06_20) =
              Some (Raise AttributeError,
                    [day_2021_06_01; day_2021_06_01 + 1;
                     day_2021_06_01 + 2])).
  { vm_compute. reflexivity. }
  split; [exact H |].
  destruct (save_forecast_fetches_in_order _ _ _ _ H)
    as [k [Hk [Hf _]]].
  exists k. split; [exact Hk | exact Hf].
Defined.

(** X2. [save_forecast] returns a mapping exactly when every day of the
    range is fetched and parsed without error and, unless the range is
    empty, the end date is before [date.max]; the mapping the instance
    held before plays no part in it. *)
Theorem save_forecast_returns_iff
    (requests_get : Datetime.date -> result Soup) (self : WeatherMaker) :
  (exists m fetched, save_forecast requests_get self = Some (Ok m, fetched))
  <->
  ((forall d, start_date self <= d <= end_date self ->
              exists e, forecast_of_day requests_get d = Ok e) /\
   (start_date self <= end_date self ->
    end_date self < Datetime.MAXORDINAL)).
Proof.
  split.
  - intros [m [fetched H]]. unfold save_forecast in H.
    apply save_forecast_loop_run in H.
    destruct H as [k [entries [_ [_ [Hk [Hc [_ Hmax]]]]]]]. split.
    + intros d Hd. apply (collected_In requests_get _ entries d Hc).
      apply date_range_In. subst k. unfold days_in_range. lia.
    + intros Hle. apply Hmax. subst k. unfold days_in_range. lia.
  - intros [Hdays Hmax].
    destruct (save_forecast_total requests_get self) as [[out fetched] H].
    destruct out as [m | ex]; [eauto |]. exfalso.
    unfold save_forecast in H. apply save_forecast_loop_run in H.
    destruct H as [k [entries [_ [Hk [j [-> [_ Hlast]]]]]]].
    unfold days_in_range in Hk.
    assert (Hj : start_date self <= start_date self + Z.of_nat j
                 <= end_date self) by lia.
    destruct Hlast as [Hfail | [_ [Hover _]]].
    + destruct (Hdays _ Hj) as [e He]. congruence.
    + assert (end_date self < Datetime.MAXORDINAL) by (apply Hmax; lia).
      lia.
Qed.

(** X3. The mapping that a new [WeatherMaker] returns has one entry per
    day of the range, keyed by the days in ascending order; each entry is
    the record collected from the page of its day and carries its key as
    its [Date]; the days fetched are the keys. *)
Theorem save_forecast_mapping
    (requests_get : Datetime.date -> result Soup)
    (from_date to_date : Datetime.date) (m : mapping)
    (fetched : list Datetime.date) :
  save_forecast requests_get (WeatherMaker_init from_date to_date) =
    Some (Ok m, fetched) ->
  map fst m = date_range from_date (days_in_range from_date to_date) /\
  fetched = map fst m /\
  (forall d e, In (d, e) m ->
     forecast_of_day requests_get d = Ok e /\ Date e = d) /\
  (forall d, from_date <= d <= to_date ->
     exists e, mapping_getitem m d = Ok e /\
               forecast_of_day requests_get d = Ok e).
Proof.
  intros H. apply save_forecast_Ok_inv in H.
  destruct H as [entries [Hc [-> [-> _]]]].
  pose proof (collected_length _ _ _ Hc) as Hlen.
  rewrite (map_fst_combine _ _ Hlen).
  split; [reflexivity |]. split; [reflexivity |]. split.
  - intros d e Hin. pose proof (collected_combine _ _ _ Hc d e Hin) as He.
    split; [exact He | now apply forecast_of_day_Date in He].
  - intros d Hd.
    assert (Hin : In d (date_range from_date
                          (days_in_range from_date to_date))).
    { apply date_range_In. unfold days_in_range. lia. }
    clear Hd Hlen. unfold collected in Hc.
    induction Hc as [|d' e' days entries Hd' _ IH]; [destruct Hin |].
    cbn [combine mapping_getitem]. destruct (d' =? d) eqn:E.
    + apply Z.eqb_eq in E. subst d'. eauto.
    + apply IH. destruct Hin as [-> | Hin]; [| exact Hin].
      rewrite Z.eqb_refl in E. discriminate.
Qed.

Lemma save_forecast_mapping_witness :
  map fst [(day_2021_06_19, {| Date := day_2021_06_19;
                               Temperature := lit "15.0deg C";
                               Weather_condition := lit "Cloudy";
                               Wind := lit "10 km/h    NW" |});
           (day_2021_06_20, {| Date := day_2021_06_20;
                               Temperature := lit "15.0deg C";
                               Weather_condition := lit "Cloudy";
                               Wind := lit "10 km/h    NW" |})] =
  date_range day_2021_06_19 (days_in_range day_2021_06_19 day_2021_06_20).
Proof.
  apply (save_forecast_mapping (scenario_web (lit "15.0" ++ [DEGREE]))
           day_2021_06_19 day_2021_06_20 _
           [day_2021_06_19; day_2021_06_20]).
  vm_compute. reflexivity.
Defined.

(** X4. Fail-fast: when the pages of the days before some day of the
    range are collected without error and the collection of that day
    raises, [save_forecast] raises that exception; the fetches made are
    those of the days up to that day, and no later day is fetched. *)
Theorem save_forecast_fail_fast
    (requests_get : Datetime.date -> result Soup) (self : WeatherMaker)
    (d : Datetime.date) (ex : exn) :
  start_date self <= d <= end_date self ->
  end_date self <= Datetime.MAXORDINAL ->
  (forall d', start_date self <= d' < d ->
              exists e, forecast_of_day requests_get d' = Ok e) ->
  forecast_of_day requests_get d = Raise ex ->
  save_forecast requests_get self =
  Some (Raise ex,
        date_range (start_date self) (Z.to_nat (d - start_date self + 1))).
Proof.
  intros Hd Hend Hbefore Hfail.
  destruct (save_forecast_total requests_get self) as [[out fetched] H].
  rewrite H. unfold save_forecast in H.
  apply save_forecast_loop_run in H.
  destruct H as [k [entries [Hf [Hk Hout]]]]. cbn [app] in Hf.
  unfold days_in_range in Hk. destruct out as [m | ex'].
  - exfalso. destruct Hout as [-> [Hc _]].
    destruct (collected_In requests_get _ entries d Hc) as [e He];
      [| congruence].
    apply date_range_In. unfold days_in_range. lia.
  - destruct Hout as [j [-> [Hc Hlast]]].
    assert (Hj : start_date self + Z.of_nat j = d).
    { destruct (Z.lt_trichotomy (start_date self + Z.of_nat j) d)
        as [Hlt | [Heq | Hgt]]; [| exact Heq |]; exfalso.
      - destruct (Hbefore (start_date self + Z.of_nat j)) as [e He];
          [lia |].
        destruct Hlast as [Hl | [_ [Hover _]]]; [congruence | lia].
      - destruct (collected_In requests_get _ entries d Hc) as [e He];
          [| congruence].
        apply date_range_In. lia. }
    rewrite Hj in Hlast. destruct Hlast as [Hl | [[e He] _]];
      [| congruence].
    rewrite Hfail in Hl. injection Hl as <-. subst fetched.
    repeat f_equal. lia.
Qed.

Lemma save_forecast_fail_fast_witness :
  save_forecast (broken_from (day_2021_06_01 + 2))
    (WeatherMaker_init day_2021_06_01 day_2021_06_20) =
  Some (Raise AttributeError,
        [day_2021_06_01; day_2021_06_01 + 1; day_2021_06_01 + 2]).
Proof.
  apply (save_forecast_fail_fast (broken_from (day_2021_06_01 + 2))
           (WeatherMaker_init day_2021_06_01 day_2021_06_20)
           (day_2021_06_01 + 2) AttributeError).
  - vm_compute. split; discriminate.
  - vm_compute. discriminate.
  - intros d' Hd'.
    assert (Hc : d' = day_2021_06_01 \/ d' = day_2021_06_01 + 1)
      by (cbn [WeatherMaker_init start_date] in Hd'; lia).
    destruct Hc as [-> | ->]; eexists; vm_compute; reflexivity.
  - vm_compute. reflexivity.
Defined.

(** X5. A range that ends on the last date, 9999-12-31, never gives a
    mapping: with start not after end, whatever the pages are,
    [save_forecast] raises. *)
Theorem save_forecast_until_max_raises
    (requests_get : Datetime.date -> result Soup)
    (from_date : Datetime.date) (wf : mapping) :
  from_date <= Datetime.MAXORDINAL ->
  exists ex fetched,
    save_forecast requests_get
      {| weather_forecast := wf; start_date := from_date;
         end_date := Datetime.MAXORDINAL |} = Some (Raise ex, fetched).
Proof.
  intros Hle.
  destruct (save_forecast_total requests_get
              {| weather_forecast := wf; start_date := from_date;
                 end_date := Datetime.MAXORDINAL |}) as [[out fetched] H].
  destruct out as [m | ex]; [| eauto]. exfalso.
  unfold save_forecast in H. cbn [start_date end_date weather_forecast] in H.
  apply save_forecast_loop_run in H.
  destruct H as [k [entries [_ [_ [Hk [_ [_ Hmax]]]]]]].
  assert (Datetime.MAXORDINAL < Datetime.MAXORDINAL); [| lia].
  apply Hmax. subst k. unfold days_in_range. lia.
Qed.

Lemma save_forecast_until_max_raises_witness :
  exists ex fetched,
    save_forecast (scenario_web (lit "15.0" ++ [DEGREE]))
      {| weather_forecast := []; start_date := Datetime.MAXORDINAL - 1;
         end_date := Datetime.MAXORDINAL |} = Some (Raise ex, fetched).
Proof.
  apply (save_forecast_until_max_raises
           (scenario_web (lit "15.0" ++ [DEGREE]))
           (Datetime.MAXORDINAL - 1) []).
  vm_compute. discriminate.
Defined.

(** ** Storing a range *)

Lemma has_dateb_true (d : Datetime.date) (t : list Forecast.row) :
  has_dateb d t = true <-> has_date d t.
Proof.
  unfold has_dateb, has_date. rewrite existsb_exists.
  split; intros [r [Hin Hr]]; exists r; split; auto;
    now apply Z.eqb_eq.
Qed.

Lemma has_dateb_false (d : Datetime.date) (t : list Forecast.row) :
  has_dateb d t = false <-> ~ has_date d t.
Proof.
  rewrite <- has_dateb_true. destruct (has_dateb d t); split; auto;
    try discriminate. intros H. exfalso. now apply H.
Qed.

Lemma has_date_app (d : Datetime.date) (t1 t2 : list Forecast.row) :
  has_date d (t1 ++ t2) <-> has_date d t1 \/ has_date d t2.
Proof.
  unfold has_date. split.
  - intros [r [Hin Hr]]. apply in_app_or in Hin.
    destruct Hin; [left | right]; eauto.
  - intros [[r [Hin Hr]] | [r [Hin Hr]]]; exists r; split; auto;
      apply in_or_app; auto.
Qed.

Lemma has_date_store_record (db : Database) (record : entry)
    (d : Datetime.date) :
  has_date d (rows (store_record db record)) <->
  has_date d (rows db) \/ d = Date record.
Proof.
  destruct (has_date_dec (Date record) (rows db)) as [H | H].
  - rewrite store_record_present by exact H. cbn [rows execute].
    split; [auto |]. intros [Hd | ->]; assumption.
  - rewrite store_record_absent by exact H. cbn [rows].
    rewrite has_date_app. split.
    + intros [Hd | [r [[<- | []] Hr]]]; [now left | right].
      symmetry. exact Hr.
    + intros [Hd | ->]; [now left | right].
      exists (inserted_row db record). split; [now left | reflexivity].
Qed.

Lemma has_date_store_records (records : list entry) :
  forall (db : Database) (d : Datetime.date),
  has_date d (rows (fold_left store_record records db)) <->
  has_date d (rows db) \/ In d (map Date records).
Proof.
  induction records as [|record records IH]; intros db d; cbn.
  - tauto.
  - rewrite IH, has_date_store_record. intuition auto.
Qed.

Lemma store_records_present (records : list entry) :
  forall db : Database,
  (forall r, In r records -> has_date (Date r) (rows db)) ->
  rows (fold_left store_record records db) = rows db.
Proof.
  induction records as [|record records IH]; intros db Hall; cbn.
  - reflexivity.
  - assert (Hr : has_date (Date record) (rows db))
      by (apply Hall; now left).
    rewrite IH.
    + rewrite store_record_present by exact Hr. reflexivity.
    + intros r Hin. rewrite store_record_present by exact Hr.
      apply Hall. now right.
Qed.

(** Records of distinct dates: the rows added are those of the records
    whose date was not stored, in the order of the records. *)
Lemma store_records_added (records : list entry) :
  forall db : Database,
  NoDup (map Date records) ->
  exists added,
    rows (fold_left store_record records db) = rows db ++ added /\
    map entry_of_row added = not_stored (rows db) records.
Proof.
  unfold not_stored.
  induction records as [|record records IH]; intros db Hnd;
    cbn [fold_left filter map].
  - exists []. now rewrite app_nil_r.
  - inversion Hnd as [|? ? Hnotin Hnd']; subst.
    destruct (IH (store_record db record) Hnd') as [added [Hrows Hadd]].
    destruct (has_date_dec (Date record) (rows db)) as [H | H].
    + rewrite (store_record_present db record H) in *.
      cbn [rows execute] in Hrows, Hadd.
      apply has_dateb_true in H. rewrite H. cbn [negb].
      exists added. split; assumption.
    + rewrite (store_record_absent db record H) in *.
      cbn [rows] in Hrows, Hadd.
      pose proof H as Hb. apply has_dateb_false in Hb. rewrite Hb.
      cbn [negb]. exists (inserted_row db record :: added). split.
      * rewrite Hrows, <- app_assoc. reflexivity.
      * cbn [map]. f_equal; [destruct record; reflexivity |].
        rewrite Hadd. apply filter_ext_in. intros e He. f_equal.
        unfold has_dateb. rewrite existsb_app. cbn [existsb].
        rewrite orb_false_r.
        assert (Hne : Date record <> Date e).
        { intros Heq. apply Hnotin. rewrite Heq. now apply in_map. }
        cbn [inserted_row Forecast.date].
        apply Z.eqb_neq in Hne. rewrite Hne. apply orb_false_r.
Qed.

Lemma collected_dates (requests_get : Datetime.date -> result Soup)
    (days : list Datetime.date) (entries : list entry) :
  collected requests_get days entries -> map Date entries = days.
Proof.
  unfold collected. induction 1 as [|d e days entries Hd _ IH]; cbn.
  - reflexivity.
  - f_equal; [now apply forecast_of_day_Date in Hd | exact IH].
Qed.

(** What a successful [store_forecast] is made of: the mapping of the
    collector, whose values are records of the days of the range, and the
    table after storing them one by one. *)
Lemma store_forecast_Ok_inv (requests_get : Datetime.date -> result Soup)
    (db db' : Database) (from_date to_date : Datetime.date)
    (fetched : list Datetime.date) :
  store_forecast requests_get db from_date to_date =
    Some (Ok db', fetched) ->
  exists m,
    save_forecast requests_get (WeatherMaker_init from_date to_date) =
      Some (Ok m, fetched) /\
    db' = fold_left store_record (values m) db /\
    map Date (values m) =
      date_range from_date (days_in_range from_date to_date).
Proof.
  unfold store_forecast.
  destruct (save_forecast requests_get (WeatherMaker_init from_date to_date))
    as [[[m | ex] f] |] eqn:E; try discriminate.
  intros H. injection H as <- <-. exists m.
  split; [reflexivity |]. split; [reflexivity |].
  apply save_forecast_Ok_inv in E.
  destruct E as [entries [Hc [-> _]]]. unfold values.
  rewrite (map_snd_combine _ _ (collected_length _ _ _ Hc)).
  now apply (collected_dates requests_get).
Qed.

(** X6. [store_forecast] never makes a second row for a date: on a table
    with at most one row per date, the table it leaves has at most one
    row per date. *)
Theorem store_forecast_unique_dates
    (requests_get : Datetime.date -> result Soup) (db db' : Database)
    (from_date to_date : Datetime.date) (fetched : list Datetime.date) :
  unique_dates (rows db) ->
  store_forecast requests_get db from_date to_date =
    Some (Ok db', fetched) ->
  unique_dates (rows db').
Proof.
  intros Hu H. apply store_forecast_Ok_inv in H.
  destruct H as [m [_ [-> _]]]. now apply store_records_unique_dates.
Qed.

Lemma store_forecast_unique_dates_witness :
  unique_dates
    (rows populated_db ++
     [ {| Forecast.id := 4; Forecast.date := day_2021_06_19 - 1;
          Forecast.temperature := lit "15.0deg C";
          Forecast.condition := lit "Cloudy";
          Forecast.wind := lit "10 km/h    NW" |} ]).
Proof.
  apply (store_forecast_unique_dates
           (scenario_web (lit "15.0" ++ [DEGREE])) populated_db
           {| rows := rows populated_db ++
                [ {| Forecast.id := 4;
                     Forecast.date := day_2021_06_19 - 1;
                     Forecast.temperature := lit "15.0deg C";
                     Forecast.condition := lit "Cloudy";
                     Forecast.wind := lit "10 km/h    NW" |} ];
              executed :=
                [ SELECT_first (day_2021_06_19 - 1);
                  INSERT {| Forecast.id := 4;
                            Forecast.date := day_2021_06_19 - 1;
                            Forecast.temperature := lit "15.0deg C";
                            Forecast.condition := lit "Cloudy";
                            Forecast.wind := lit "10 km/h    NW" |};
                  UPDATE (day_2021_06_19 - 1) (lit "15.0deg C")
                    (lit "Cloudy") (lit "10 km/h    NW");
                  SELECT_first day_2021_06_19;
                  SELECT_first day_2021_06_20 ] |}
           (day_2021_06_19 - 1) day_2021_06_20
           [day_2021_06_19 - 1; day_2021_06_19; day_2021_06_20]).
  - unfold unique_dates. vm_compute.
    repeat (constructor; [cbn; intuition discriminate |]). constructor.
  - vm_compute. reflexivity.
Defined.

Lemma not_stored_all (t : list Forecast.row) (records : list entry) :
  (forall e, In e records -> ~ has_date (Date e) t) ->
  not_stored t records = records.
Proof.
  intros H. unfold not_stored. apply forallb_filter_id.
  apply forallb_forall. intros e He. apply H in He.
  apply has_dateb_false in He. now rewrite He.
Qed.

Lemma insert_by_date_first (r : Forecast.row) (l : list Forecast.row) :
  Forall (fun x => Forecast.date r <= Forecast.date x) l ->
  insert_by_date r l = r :: l.
Proof.
  destruct l as [|x l]; [reflexivity |]. intros H.
  apply Forall_inv in H. cbn [insert_by_date].
  apply Z.leb_le in H. now rewrite H.
Qed.

(** A list that is in ascending order of date is left as it is. *)
Lemma order_by_date_ascending_id (l : list Forecast.row) :
  ascending_by_date l -> order_by_date l = l.
Proof.
  unfold ascending_by_date. induction 1 as [|x l Hl IH Hx].
  - reflexivity.
  - cbn. fold (order_by_date l). rewrite IH.
    now apply insert_by_date_first.
Qed.

Lemma dates_date_range_ascending (l : list Forecast.row) :
  forall (cur : Datetime.date) (k : nat),
  map Forecast.date l = date_range cur k -> ascending_by_date l.
Proof.
  unfold ascending_by_date.
  induction l as [|x l IH]; intros cur k H; [constructor |].
  destruct k as [|k]; [discriminate |]. rewrite date_range_S in H.
  cbn [map] in H. injection H as Hx Hl. constructor.
  - now apply (IH (cur + 1) k).
  - apply Forall_forall. intros y Hy.
    assert (Hin : In (Forecast.date y) (date_range (cur + 1) k))
      by (rewrite <- Hl; now apply in_map).
    apply date_range_In in Hin. lia.
Qed.

Lemma filter_between_none (from_date to_date : Datetime.date)
    (t : list Forecast.row) :
  none_stored_between from_date to_date t ->
  filter (between from_date to_date) t = [].
Proof.
  unfold none_stored_between. induction t as [|r t IH]; intros H; cbn.
  - reflexivity.
  - destruct (between from_date to_date r) eqn:E.
    + apply between_spec in E. exfalso. apply (H r); [now left | exact E].
    + apply IH. intros r' Hr'. apply H. now right.
Qed.

Lemma filter_between_all (from_date to_date : Datetime.date)
    (t : list Forecast.row) :
  (forall r, In r t -> from_date <= Forecast.date r <= to_date) ->
  filter (between from_date to_date) t = t.
Proof.
  intros H. apply forallb_filter_id. apply forallb_forall.
  intros r Hr. apply between_spec. now apply H.
Qed.

Lemma map_date_entry_of_row (t : list Forecast.row) :
  map Date (map entry_of_row t) = map Forecast.date t.
Proof. rewrite map_map. reflexivity. Qed.






(** X8. After a successful [store_forecast] the dates that have a row are
    those that had one before and the days of the range: every day from
    start to end is stored, and no other date is added. *)
Theorem store_forecast_stored_dates
    (requests_get : Datetime.date -> result Soup) (db db' : Database)
    (from_date to_date : Datetime.date) (fetched : list Datetime.date) :
  store_forecast requests_get db from_date to_date =
    Some (Ok db', fetched) ->
  forall d, has_date d (rows db') <->
            has_date d (rows db) \/ from_date <= d <= to_date.
Proof.
  intros H d. apply store_forecast_Ok_inv in H.
  destruct H as [m [_ [-> Hdates]]].
  rewrite has_date_store_records, Hdates, date_range_In.
  unfold days_in_range. split; (intros [Hd | Hd]; [now left | right; lia]).
Qed.

Lemma store_forecast_stored_dates_witness :
  has_date day_2021_06_01 (rows (store_record empty_db scenario_record)).
Proof.
  apply (store_forecast_stored_dates
           (scenario_web (lit "15.0" ++ [DEGREE])) empty_db
           (store_record empty_db scenario_record)
           day_2021_06_01 day_2021_06_01 [day_2021_06_01]).
  - vm_compute. reflexivity.
  - right. split; apply Z.le_refl.
Defined.

(** X9. Once a range is stored, storing it or any part of it again
    changes no row, whatever the pages say the second time. *)
Theorem store_forecast_again_changes_nothing
    (first_web second_web : Datetime.date -> result Soup)
    (db db1 db2 : Database)
    (from_date to_date from_date' to_date' : Datetime.date)
    (fetched fetched' : list Datetime.date) :
  from_date <= from_date' -> to_date' <= to_date ->
  store_forecast first_web db from_date to_date =
    Some (Ok db1, fetched) ->
  store_forecast second_web db1 from_date' to_date' =
    Some (Ok db2, fetched') ->
  rows db2 = rows db1.
Proof.
  intros Hfrom Hto H1 H2.
  pose proof (store_forecast_Ok_inv _ _ _ _ _ _ H1) as [m1 [_ [E1 Hd1]]].
  pose proof (store_forecast_Ok_inv _ _ _ _ _ _ H2) as [m2 [_ [E2 Hd2]]].
  rewrite E2. apply store_records_present. intros r Hr.
  apply (in_map Date) in Hr. rewrite Hd2 in Hr.
  apply date_range_In in Hr. unfold days_in_range in Hr.
  rewrite E1. apply has_date_store_records. right. rewrite Hd1.
  apply date_range_In. unfold days_in_range. lia.
Qed.

Lemma store_forecast_again_changes_nothing_witness :
  rows (store_record (store_record empty_db scenario_record)
          {| Date := day_2021_06_01; Temperature := lit "20.0deg C";
             Weather_condition := lit "Cloudy";
             Wind := lit "10 km/h    NW" |}) =
  rows (store_record empty_db scenario_record).
Proof.
  apply (store_forecast_again_changes_nothing
           (scenario_web (lit "15.0" ++ [DEGREE]))
           (scenario_web (lit "20.0" ++ [DEGREE]))
           empty_db (store_record empty_db scenario_record)
           (store_record (store_record empty_db scenario_record)
              {| Date := day_2021_06_01; Temperature := lit "20.0deg C";
                 Weather_condition := lit "Cloudy";
                 Wind := lit "10 km/h    NW" |})
           day_2021_06_01 day_2021_06_01 day_2021_06_01 day_2021_06_01
           [day_2021_06_01] [day_2021_06_01]).
  - apply Z.le_refl.
  - apply Z.le_refl.
  - vm_compute. reflexivity.
  - vm_compute. reflexivity.
Defined.

(** X10. Storing a range none of whose days is stored and then querying
    that range returns the records that were collected, in ascending
    order of date: for new days the round trip holds on whole ranges. *)
Theorem store_forecast_then_get_forecast
    (requests_get : Datetime.date -> result Soup) (db db' : Database)
    (from_date to_date : Datetime.date) (fetched : list Datetime.date) :
  none_stored_between from_date to_date (rows db) ->
  store_forecast requests_get db from_date to_date =
    Some (Ok db', fetched) ->
  exists m,
    save_forecast requests_get (WeatherMaker_init from_date to_date) =
      Some (Ok m, fetched) /\
    map entry_of_row (fst (get_forecast db' from_date to_date)) = values m.
Proof.
  intros Hnone H. apply store_forecast_Ok_inv in H.
  destruct H as [m [Hsave [-> Hdates]]]. exists m.
  split; [exact Hsave |].
  destruct (store_records_added (values m) db) as [added [Hrows Hadd]].
  { rewrite Hdates. apply date_range_NoDup. }
  rewrite not_stored_all in Hadd.
  - cbn [get_forecast fst]. rewrite Hrows, filter_app.
    rewrite (filter_between_none _ _ _ Hnone). cbn [app].
    assert (Hd : map Forecast.date added =
                 date_range from_date (days_in_range from_date to_date))
      by (rewrite <- map_date_entry_of_row, Hadd; exact Hdates).
    rewrite filter_between_all.
    + rewrite order_by_date_ascending_id; [exact Hadd |].
      now apply (dates_date_range_ascending _ _ _ Hd).
    + intros r Hr. apply (in_map Forecast.date) in Hr. rewrite Hd in Hr.
      apply date_range_In in Hr. unfold days_in_range in Hr. lia.
  - intros e He [r [Hr Hdate]]. apply (Hnone r Hr). rewrite Hdate.
    apply (in_map Date) in He. rewrite Hdates in He.
    apply date_range_In in He. unfold days_in_range in He. lia.
Qed.

Lemma store_forecast_then_get_forecast_witness :
  exists m,
    save_forecast (scenario_web (lit "15.0" ++ [DEGREE]))
      (WeatherMaker_init (day_2021_06_01 + 1) (day_2021_06_01 + 2)) =
      Some (Ok m, [day_2021_06_01 + 1; day_2021_06_01 + 2]) /\
    map entry_of_row
      (fst (get_forecast
              (fold_left store_record
                 [ {| Date := day_2021_06_01 + 1;
                      Temperature := lit "15.0deg C";
                      Weather_condition := lit "Cloudy";
                      Wind := lit "10 km/h    NW" |};
                   {| Date := day_2021_06_01 + 2;
                      Temperature := lit "15.0deg C";
                      Weather_condition := lit "Cloudy";
                      Wind := lit "10 km/h    NW" |} ] populated_db)
              (day_2021_06_01 + 1) (day_2021_06_01 + 2))) = values m.
Proof.
  apply (store_forecast_then_get_forecast
           (scenario_web (lit "15.0" ++ [DEGREE])) populated_db _
           (day_2021_06_01 + 1) (day_2021_06_01 + 2)
           [day_2021_06_01 + 1; day_2021_06_01 + 2]).
  - intros r [<- | [<- | [<- | []]]]; vm_compute; intros [H1 H2];
      try (apply H1; reflexivity); try (apply H2; reflexivity).
  - vm_compute. reflexivity.
Defined.

(** ** Queries on a table with one row per date *)

Lemma filter_perm (f : Forecast.row -> bool) (l l' : list Forecast.row) :
  Permutation l l' -> Permutation (filter f l) (filter f l').
Proof.
  induction 1 as [| x l l' _ IH | x y l | l l' l'' _ IH1 _ IH2]; cbn.
  - constructor.
  - destruct (f x); [now constructor | exact IH].
  - destruct (f x), (f y); try reflexivity. apply perm_swap.
  - now transitivity (filter f l').
Qed.

Lemma filter_unique_dates (f : Forecast.row -> bool)
    (t : list Forecast.row) :
  unique_dates t -> unique_dates (filter f t).
Proof.
  unfold unique_dates. induction t as [|r t IH]; cbn; intros H;
    [constructor |].
  inversion H as [|? ? Hnotin Hnd]; subst.
  destruct (f r); cbn; [| now apply IH].
  constructor; [| now apply IH]. intros Hin. apply Hnotin.
  apply in_map_iff in Hin. destruct Hin as [r' [Hr' Hin]].
  apply filter_In in Hin. apply in_map_iff. exists r'. tauto.
Qed.

Lemma ascending_unique_strict (l : list Forecast.row) :
  ascending_by_date l -> unique_dates l -> strictly_ascending_by_date l.
Proof.
  unfold ascending_by_date, unique_dates, strictly_ascending_by_date.
  induction 1 as [|x l Hl IH Hx]; cbn; intros Hnd; [constructor |].
  inversion Hnd as [|? ? Hnotin Hnd']; subst.
  constructor; [now apply IH |].
  rewrite Forall_forall in *. intros y Hy. specialize (Hx y Hy).
  assert (Forecast.date x <> Forecast.date y); [| lia].
  intros Heq. apply Hnotin. rewrite Heq. now apply in_map.
Qed.

Lemma get_forecast_unique_dates (db : Database)
    (from_date to_date : Datetime.date) :
  unique_dates (rows db) ->
  unique_dates (fst (get_forecast db from_date to_date)).
Proof.
  intros Hu. cbn [get_forecast fst]. unfold unique_dates.
  apply (Permutation_NoDup
           (l := map Forecast.date
                   (filter (between from_date to_date) (rows db)))).
  - apply Permutation_map. symmetry. apply order_by_date_perm.
  - now apply filter_unique_dates.
Qed.

Lemma get_forecast_strict (db : Database)
    (from_date to_date : Datetime.date) :
  unique_dates (rows db) ->
  strictly_ascending_by_date (fst (get_forecast db from_date to_date)).
Proof.
  intros Hu. apply ascending_unique_strict.
  - apply order_by_date_ascending.
  - now apply get_forecast_unique_dates.
Qed.

(** Two lists in strictly ascending order of date with the same rows are
    the same list. *)
Lemma strictly_ascending_perm_eq (l1 : list Forecast.row) :
  forall l2, strictly_ascending_by_date l1 ->
    strictly_ascending_by_date l2 -> Permutation l1 l2 -> l1 = l2.
Proof.
  unfold strictly_ascending_by_date.
  induction l1 as [|x l1 IH]; intros l2 H1 H2 Hp.
  - now apply Permutation_nil in Hp.
  - destruct l2 as [|y l2].
    + symmetry in Hp. now apply Permutation_nil in Hp.
    + apply StronglySorted_inv in H1. destruct H1 as [H1 Hx].
      apply StronglySorted_inv in H2. destruct H2 as [H2 Hy].
      rewrite Forall_forall in Hx, Hy.
      assert (Hxy : x = y).
      { assert (Hin1 : In x (y :: l2))
          by (apply (Permutation_in _ Hp); now left).
        assert (Hin2 : In y (x :: l1))
          by (apply (Permutation_in _ (Permutation_sym Hp)); now left).
        destruct Hin1 as [-> | Hin1]; [reflexivity |].
        destruct Hin2 as [-> | Hin2]; [reflexivity |].
        apply Hy in Hin1. apply Hx in Hin2. lia. }
      subst y. f_equal. apply IH; auto.
      now apply Permutation_cons_inv in Hp.
Qed.

(** X11. On a table with at most one row per date, the rows that
    [get_forecast] returns are in strictly ascending order of date, so no
    date comes twice, and a query for a single date returns at most one
    row. *)
Theorem get_forecast_one_row_per_date (db : Database)
    (from_date to_date : Datetime.date) :
  unique_dates (rows db) ->
  strictly_ascending_by_date (fst (get_forecast db from_date to_date)) /\
  (from_date = to_date ->
   (List.length (fst (get_forecast db from_date to_date)) <= 1)%nat).
Proof.
  intros Hu. split; [now apply get_forecast_strict |].
  intros <-. pose proof (get_forecast_strict db from_date from_date Hu) as Hs.
  assert (Hall : forall r,
            In r (fst (get_forecast db from_date from_date)) ->
            Forecast.date r = from_date).
  { intros r Hr. cbn [get_forecast fst] in Hr.
    apply (Permutation_in _ (order_by_date_perm _)) in Hr.
    apply filter_In in Hr. destruct Hr as [_ Hr].
    apply between_spec in Hr. lia. }
  destruct (fst (get_forecast db from_date from_date)) as [|x [|y l]];
    cbn; try lia.
  exfalso. unfold strictly_ascending_by_date in Hs.
  apply StronglySorted_inv in Hs. destruct Hs as [_ Hx].
  apply Forall_inv in Hx.
  rewrite (Hall x), (Hall y) in Hx; cbn; auto. lia.
Qed.

Lemma get_forecast_one_row_per_date_witness :
  strictly_ascending_by_date
    (fst (get_forecast populated_db day_2021_06_01 day_2021_06_20)).
Proof.
  apply (get_forecast_one_row_per_date populated_db
           day_2021_06_01 day_2021_06_20).
  unfold unique_dates. vm_compute.
  repeat (constructor; [cbn; intuition discriminate |]). constructor.
Defined.

(** X12. On tables with at most one row per date, the result of
    [get_forecast] does not depend on the order in which the rows were
    stored: two tables with the same rows give the same sequence. *)
Theorem get_forecast_storage_order (db1 db2 : Database)
    (from_date to_date : Datetime.date) :
  unique_dates (rows db1) ->
  Permutation (rows db1) (rows db2) ->
  fst (get_forecast db1 from_date to_date) =
  fst (get_forecast db2 from_date to_date).
Proof.
  intros Hu Hp.
  assert (Hu2 : unique_dates (rows db2)).
  { unfold unique_dates in *.
    apply (Permutation_NoDup (l := map Forecast.date (rows db1)));
      [now apply Permutation_map | exact Hu]. }
  apply strictly_ascending_perm_eq.
  - now apply get_forecast_strict.
  - now apply get_forecast_strict.
  - cbn [get_forecast fst]. rewrite !order_by_date_perm.
    now apply filter_perm.
Qed.

Lemma get_forecast_storage_order_witness :
  fst (get_forecast populated_db day_2021_06_01 day_2021_06_20) =
  fst (get_forecast
         {| rows := rev (rows populated_db); executed := [] |}
         day_2021_06_01 day_2021_06_20).
Proof.
  apply (get_forecast_storage_order populated_db
           {| rows := rev (rows populated_db); executed := [] |}
           day_2021_06_01 day_2021_06_20).
  - unfold unique_dates. vm_compute.
    repeat (constructor; [cbn; intuition discriminate |]). constructor.
  - apply Permutation_rev.
Defined.

(** ** The range of the Condition Normalizer *)

(** Either some group of the table is the first to occur in the text, or
    no group occurs. *)
Lemma first_group_cases (text : str) (d : condition_dict) :
  (exists pre keywords category post,
      d = pre ++ (keywords, category) :: post /\
      group_occurs keywords text /\
      (forall g, In g pre -> ~ group_occurs (fst g) text)) \/
  (forall g, In g d -> ~ group_occurs (fst g) text).
Proof.
  induction d as [|[keywords category] d IH].
  - right. intros g [].
  - destruct (group_occursb keywords text) eqn:E.
    + left. exists [], keywords, category, d.
      split; [reflexivity |]. split; [now apply group_occursb_true |].
      intros g [].
    + apply group_occursb_false in E.
      destruct IH as [[pre [kws [cat [post [-> [Hocc Hpre]]]]]] | Hnone].
      * left. exists ((keywords, category) :: pre), kws, cat, post.
        split; [reflexivity |]. split; [exact Hocc |].
        intros g [<- | Hg]; [exact E | now apply Hpre].
      * right. intros g [<- | Hg]; [exact E | now apply Hnone].
Qed.

Lemma listed_category (keywords : list str) (category : str) :
  In (keywords, category) WEATHER_CONDITION_DICT ->
  In category WEATHER_TYPES.
Proof.
  intros H. repeat (destruct H as [H | H];
    [injection H as <- <-; vm_compute; tauto |]).
  destruct H.
Qed.

(** The result for a text: a weather type when some keyword occurs, the
    text itself when none does. *)
Lemma parse_weather_condition_cases (soup : Soup) (text : str) :
  summary soup = Some text ->
  (keyword_occurs text /\
   exists category, In category WEATHER_TYPES /\
                    parse_weather_condition soup = Ok category) \/
  (~ keyword_occurs text /\ parse_weather_condition soup = Ok text).
Proof.
  intros Hs.
  destruct (first_group_cases text WEATHER_CONDITION_DICT)
    as [[pre [kws [cat [post [HD [Hocc Hpre]]]]]] | Hnone].
  - left. assert (Hin : In (kws, cat) WEATHER_CONDITION_DICT)
      by (rewrite HD; apply in_elt).
    split; [exists (kws, cat); auto |].
    exists cat. split; [now apply (listed_category kws) |].
    now apply (parse_weather_condition_first soup text pre post kws).
  - right. split; [intros [g [Hg Hocc]]; now apply (Hnone g) |].
    now apply parse_weather_condition_none.
Qed.

Lemma weather_type_fixed (category : str) :
  In category WEATHER_TYPES ->
  parse_weather_condition (soup_with_summary category) = Ok category.
Proof.
  intros H. repeat (destruct H as [<- | H]; [vm_compute; reflexivity |]).
  destruct H.
Qed.

(** X13. On a page that has a summary the Condition Normalizer never
    raises; its result is one of the four weather types exactly when some
    listed keyword occurs in the summary, and is the summary itself
    otherwise. *)
Theorem parse_weather_condition_range (soup : Soup) (text : str) :
  summary soup = Some text ->
  exists r, parse_weather_condition soup = Ok r /\
    ((keyword_occurs text /\ In r WEATHER_TYPES) \/
     (~ keyword_occurs text /\ r = text)).
Proof.
  intros Hs.
  destruct (parse_weather_condition_cases soup text Hs)
    as [[Hk [cat [Hin Hp]]] | [Hk Hp]].
  - exists cat. split; [exact Hp | left; auto].
  - exists text. split; [exact Hp | right; auto].
Qed.

Lemma parse_weather_condition_range_witness :
  exists r,
    parse_weather_condition (scenario_soup (lit "15.0" ++ [DEGREE])) =
      Ok r /\
    ((keyword_occurs (lit "Partly cloudy skies") /\ In r WEATHER_TYPES) \/
     (~ keyword_occurs (lit "Partly cloudy skies") /\
      r = lit "Partly cloudy skies")).
Proof.
  apply (parse_weather_condition_range
           (scenario_soup (lit "15.0" ++ [DEGREE]))
           (lit "Partly cloudy skies")).
  reflexivity.
Defined.

(** X14. Normalising is idempotent: the result of the Condition
    Normalizer, given back to it as a summary, is returned unchanged. *)
Theorem parse_weather_condition_idempotent (soup : Soup) (r : str) :
  parse_weather_condition soup = Ok r ->
  parse_weather_condition (soup_with_summary r) = Ok r.
Proof.
  intros H. destruct (summary soup) as [text |] eqn:Hs.
  - destruct (parse_weather_condition_cases soup text Hs)
      as [[_ [cat [Hin Hp]]] | [Hk Hp]];
      rewrite Hp in H; injection H as <-.
    + now apply weather_type_fixed.
    + destruct (parse_weather_condition_cases (soup_with_summary text)
                  text eq_refl) as [[Hk' _] | [_ Hp']];
        [contradiction | exact Hp'].
  - unfold parse_weather_condition in H. rewrite Hs in H.
    vm_compute in H. discriminate H.
Qed.

Lemma parse_weather_condition_idempotent_witness :
  parse_weather_condition (soup_with_summary (lit "Rainy")) =
  Ok (lit "Rainy").
Proof.
  apply (parse_weather_condition_idempotent
           (soup_with_summary (lit "Light drizzle at night"))
           (lit "Rainy")).
  vm_compute. reflexivity.
Defined.

(** ** The colour of the postcard *)

Lemma color_of_weather_type (category : str) :
  In category WEATHER_TYPES ->
  exists color, color_getitem WEATHER_COLOR_CODES category = Ok color.
Proof.
  intros H. repeat (destruct H as [<- | H];
    [eexists; vm_compute; reflexivity |]).
  destruct H.
Qed.

Lemma weather_type_has_keyword (category : str) :
  In category WEATHER_TYPES -> keyword_occurs category.
Proof.
  intros H.
  assert (Hb : existsb (fun g => group_occursb (fst g) category)
                 WEATHER_CONDITION_DICT = true).
  { repeat (destruct H as [<- | H]; [vm_compute; reflexivity |]).
    destruct H. }
  apply existsb_exists in Hb. destruct Hb as [g [Hg Hocc]].
  exists g. split; [exact Hg | now apply group_occursb_true].
Qed.

Lemma color_getitem_In (d : list (str * (Z * Z * Z))) (key : str)
    (color : Z * Z * Z) :
  color_getitem d key = Ok color -> In key (map fst d).
Proof.
  induction d as [|[k v] d IH]; cbn; [discriminate |].
  destruct (Str.eqb k key) eqn:E; [| auto].
  apply str_eqb_eq in E. auto.
Qed.

Lemma color_getitem_Raise (d : list (str * (Z * Z * Z))) (key : str)
    (ex : exn) :
  color_getitem d key = Raise ex -> ex = KeyError.
Proof.
  induction d as [|[k v] d IH]; cbn; [congruence |].
  destruct (Str.eqb k key); [discriminate | exact IH].
Qed.

(** X15. The colour lookup that opens [add_gradient] succeeds exactly
    when the Condition Normalizer found a keyword: for a forecast whose
    condition comes from a summary with a listed keyword it gives the
    colour of a weather type, and for a summary without any listed
    keyword, kept as raw text, it raises KeyError, so that no postcard is
    drawn. *)
Theorem add_gradient_color_iff_keyword (soup : Soup) (text : str)
    (forecast : entry) :
  summary soup = Some text ->
  parse_weather_condition soup = Ok (Weather_condition forecast) ->
  (keyword_occurs text ->
   exists color, add_gradient_initial_color forecast = Ok color) /\
  (~ keyword_occurs text ->
   add_gradient_initial_color forecast = Raise KeyError).
Proof.
  intros Hs Hp. unfold add_gradient_initial_color.
  destruct (parse_weather_condition_cases soup text Hs)
    as [[Hk [cat [Hin Hp']]] | [Hk Hp']];
    rewrite Hp' in Hp; injection Hp as Hc; rewrite <- Hc.
  - split; [intros _; now apply color_of_weather_type | contradiction].
  - split; [contradiction | intros _].
    destruct (color_getitem WEATHER_COLOR_CODES text) as [color | ex] eqn:E.
    + apply color_getitem_In in E.
      change (map fst WEATHER_COLOR_CODES) with WEATHER_TYPES in E.
      apply weather_type_has_keyword in E. contradiction.
    + apply color_getitem_Raise in E. now subst ex.
Qed.

Lemma add_gradient_color_iff_keyword_witness :
  add_gradient_initial_color
    {| Date := day_2021_06_01; Temperature := lit "15.0deg C";
       Weather_condition := lit "Windy"; Wind := lit "10 km/h    NW" |} =
  Raise KeyError.
Proof.
  apply (add_gradient_color_iff_keyword
           (soup_with_summary (lit "Windy")) (lit "Windy")
           {| Date := day_2021_06_01; Temperature := lit "15.0deg C";
              Weather_condition := lit "Windy";
              Wind := lit "10 km/h    NW" |}).
  - reflexivity.
  - vm_compute. reflexivity.
  - intros [g [Hg Hocc]]. apply group_occursb_true in Hocc.
    destruct Hg as [<- | [<- | [<- | [<- | []]]]];
      vm_compute in Hocc; discriminate Hocc.
Defined.

(** ** The Field Extractor *)



Lemma parse_wind_Ok_iff (soup : Soup) (w : str) :
  parse_wind soup = Ok w <->
  (exists force units title,
      wind_div soup =
        Some (Some {| num_swip := Some force; unit_swap := Some units;
                      direction := Some (Some title) |}) /\
      w = force ++ lit " " ++ units ++ lit "    " ++ title).
Proof.
  unfold parse_wind.
  destruct (wind_div soup) as [[[force units dir] |] |]; cbn.
  - destruct dir as [[title |] |]; cbn.
    + destruct force as [force |]; cbn.
      * destruct units as [units |]; cbn.
        -- split.
           ++ intros H. injection H as <-. eauto 6.
           ++ intros [f [u [t [H ->]]]]. injection H as <- <- <-.
              reflexivity.
        -- split; [discriminate |].
           intros [f [u [t [H _]]]]. discriminate H.
      * split; [discriminate |].
        intros [f [u [t [H _]]]]. discriminate H.
    + split; [discriminate |]. intros [f [u [t [H _]]]]. discriminate H.
    + split; [discriminate |]. intros [f [u [t [H _]]]]. discriminate H.
  - split; [discriminate |]. intros [f [u [t [H _]]]]. discriminate H.
  - split; [discriminate |]. intros [f [u [t [H _]]]]. discriminate H.
Qed.

(** X16. [parse_wind] gives a value only when the wind block, its force,
    its unit and the title of its direction are all there, and the value
    is then force, space, unit, four spaces, title.  The direction is
    read first: when its tag is missing the exception is TypeError, and
    when only its title is missing it is KeyError, whether or not force
    and unit are there. *)
Theorem parse_wind_all_or_error (soup : Soup) :
  (forall w, parse_wind soup = Ok w <->
     exists force units title,
       wind_div soup =
         Some (Some {| num_swip := Some force; unit_swap := Some units;
                       direction := Some (Some title) |}) /\
       w = force ++ lit " " ++ units ++ lit "    " ++ title) /\
  (forall force units,
     wind_div soup =
       Some (Some {| num_swip := force; unit_swap := units;
                     direction := None |}) ->
     parse_wind soup = Raise TypeError) /\
  (forall force units,
     wind_div soup =
       Some (Some {| num_swip := force; unit_swap := units;
                     direction := Some None |}) ->
     parse_wind soup = Raise KeyError).
Proof.
  split; [intros w; apply parse_wind_Ok_iff |].
  split; intros force units H; unfold parse_wind; rewrite H; reflexivity.
Qed.

Lemma parse_wind_all_or_error_witness :
  parse_wind
    {| temperature_div := None; summary := None;
       wind_div := Some (Some {| num_swip := None; unit_swap := None;
                                 direction := None |}) |} =
  Raise TypeError.
Proof.
  destruct (parse_wind_all_or_error
              {| temperature_div := None; summary := None;
                 wind_div :=
                   Some (Some {| num_swip := None; unit_swap := None;
                                 direction := None |}) |})
    as (_ & H & _).
  apply (H None None). reflexivity.
Defined.


(** ** The postcard and the first launch *)

Lemma mapping_getitem_single (d : Datetime.date) (e : entry) :
  mapping_getitem [(d, e)] d = Ok e.
Proof. cbn. now rewrite Z.eqb_refl. Qed.

(** X18. Before the last date, [prepare_forecast] makes exactly one
    fetch, of the selected date, and gives exactly what the collector
    gives for that day: its record, or the exception raised while
    collecting it.  The lookup in the returned mapping never fails. *)
Theorem prepare_forecast_one_day
    (requests_get : Datetime.date -> result Soup)
    (selected_date : Datetime.date) :
  selected_date < Datetime.MAXORDINAL ->
  prepare_forecast requests_get selected_date =
  Some (forecast_of_day requests_get selected_date, [selected_date]).
Proof.
  intros Hd. unfold prepare_forecast.
  rewrite save_forecast_single_day, collect_day_forecast.
  rewrite add_one_day_before_max by exact Hd.
  destruct (forecast_of_day requests_get selected_date) as [e | ex];
    [| reflexivity].
  cbn [setitem]. now rewrite mapping_getitem_single.
Qed.

Lemma prepare_forecast_one_day_witness :
  prepare_forecast (scenario_web (lit "15.0" ++ [DEGREE]))
    day_2021_06_01 =
  Some (forecast_of_day (scenario_web (lit "15.0" ++ [DEGREE]))
          day_2021_06_01, [day_2021_06_01]).
Proof.
  apply (prepare_forecast_one_day
           (scenario_web (lit "15.0" ++ [DEGREE])) day_2021_06_01).
  vm_compute. reflexivity.
Defined.






(** ** The icon of the postcard *)

Lemma in_chars (c : char) (chars : str) :
  existsb (N.eqb c) chars = true <-> In c chars.
Proof.
  rewrite existsb_exists. split.
  - intros [x [Hx E]]. apply N.eqb_eq in E. now subst x.
  - intros H. exists c. split; [exact H | apply N.eqb_refl].
Qed.

Lemma rstrip_all (t chars : str) :
  (forall c, In c t -> In c chars) -> rstrip t chars = [].
Proof.
  induction t as [|c t IH]; cbn; intros H; [reflexivity |].
  rewrite IH by (intros c' Hc'; apply H; now right).
  assert (Hc : existsb (N.eqb c) chars = true)
    by (apply in_chars, H; now left).
  now rewrite Hc.
Qed.

Lemma rstrip_app (s t chars : str) :
  (forall c, In c t -> In c chars) ->
  rstrip (s ++ t) chars = rstrip s chars.
Proof.
  intros H. induction s as [|c s IH]; cbn [app rstrip].
  - now apply rstrip_all.
  - now rewrite IH.
Qed.

Lemma contains_empty (s : str) : contains [] s = true.
Proof. destruct s; reflexivity. Qed.

(** X20. [add_image] strips the extension as a set of characters: the
    name compared with the condition is the file name without all its
    trailing '.', 'j', 'p' and 'g', so that any such characters at the end
    of the stem go with the extension.  A file name made only of these
    characters passes the test for every condition, and is the icon
    chosen when it is listed first. *)
Theorem add_image_strips_characters (stem tail condition : str) :
  (forall c, In c tail -> In c (lit ".jpg")) ->
  add_image_matches (stem ++ tail) condition =
    add_image_matches stem condition /\
  add_image_matches tail condition = true /\
  (forall filenames walk,
     add_image_file ((tail :: filenames) :: walk) condition = Some tail).
Proof.
  intros H. unfold add_image_matches. split; [| split].
  - now rewrite rstrip_app.
  - rewrite rstrip_all by exact H. apply contains_empty.
  - intros filenames walk. cbn [add_image_file add_image_in_directory].
    unfold add_image_matches. rewrite rstrip_all by exact H.
    now rewrite contains_empty.
Qed.

Lemma add_image_strips_characters_witness :
  add_image_matches (lit "fog" ++ lit "g.jpg") (lit "Cloudy") =
    add_image_matches (lit "fog") (lit "Cloudy") /\
  add_image_matches (lit "g.jpg") (lit "Cloudy") = true /\
  (forall filenames walk,
     add_image_file ((lit "g.jpg" :: filenames) :: walk) (lit "Cloudy") =
     Some (lit "g.jpg")).
Proof.
  apply (add_image_strips_characters (lit "fog") (lit "g.jpg")
           (lit "Cloudy")).
  intros c Hc. vm_compute in Hc. vm_compute. tauto.
Defined.

(** ** More on the parsers *)

Lemma drop_last_cases (text : str) :
  (text = [] /\ drop_last text = []) \/
  (exists c, text = drop_last text ++ [c]).
Proof.
  destruct text as [|c text]; [left; split; reflexivity | right].
  assert (Hne : c :: text <> []) by discriminate.
  destruct (exists_last Hne) as [init [z Hz]]. exists z.
  rewrite Hz. unfold drop_last. now rewrite removelast_last.
Qed.

(** X21. When the temperature block is there, [parse_temperature] never
    raises: it stores the extracted text without its last character,
    whatever that character is, followed by "deg C"; an empty text is
    stored as "deg C" alone. *)
Theorem parse_temperature_drops_one_character (soup : Soup) (text : str) :
  temperature_div soup = Some (Some text) ->
  exists numeric,
    parse_temperature soup = Ok (numeric ++ lit "deg C") /\
    ((text = [] /\ numeric = []) \/ (exists c, text = numeric ++ [c])).
Proof.
  intros H. exists (drop_last text). unfold parse_temperature. rewrite H.
  split; [reflexivity | apply drop_last_cases].
Qed.

Lemma parse_temperature_drops_one_character_witness :
  exists numeric,
    parse_temperature (scenario_soup []) = Ok (numeric ++ lit "deg C") /\
    (([] = @nil char /\ numeric = []) \/
     (exists c, [] = numeric ++ [c])).
Proof.
  apply (parse_temperature_drops_one_character (scenario_soup []) []).
  reflexivity.
Defined.

Lemma WEATHER_CONDITION_DICT_categories_NoDup :
  NoDup (map snd WEATHER_CONDITION_DICT).
Proof.
  repeat (constructor;
    [intros H; repeat (destruct H as [H | H]; [discriminate H |]);
     exact H |]).
  constructor.
Qed.

(** In a table whose categories are distinct, a category sits at one
    place. *)
Lemma split_unique (d : condition_dict) :
  forall (p1 p2 q1 q2 : condition_dict) (k1 k2 : list str) (c : str),
  NoDup (map snd d) ->
  d = p1 ++ (k1, c) :: q1 -> d = p2 ++ (k2, c) :: q2 ->
  p1 = p2 /\ k1 = k2.
Proof.
  induction d as [|g d IH]; intros p1 p2 q1 q2 k1 k2 c Hnd H1 H2.
  - destruct p1; discriminate.
  - cbn in Hnd. inversion Hnd as [|? ? Hnotin Hnd']; subst.
    destruct p1 as [|g1 p1], p2 as [|g2 p2]; cbn in H1, H2.
    + split; [reflexivity | congruence].
    + exfalso. injection H1 as Hg _. subst g. injection H2 as _ Hd.
      apply Hnotin. cbn [snd]. rewrite Hd, map_app. apply in_or_app.
      right. now left.
    + exfalso. injection H2 as Hg _. subst g. injection H1 as _ Hd.
      apply Hnotin. cbn [snd]. rewrite Hd, map_app. apply in_or_app.
      right. now left.
    + assert (H1' : d = p1 ++ (k1, c) :: q1) by congruence.
      assert (H2' : d = p2 ++ (k2, c) :: q2) by congruence.
      destruct (IH p1 p2 q1 q2 k1 k2 c Hnd' H1' H2') as [-> ->].
      split; [congruence | reflexivity].
Qed.

(** X22. The Condition Normalizer answers with the category of a group
    exactly when a keyword of that group occurs in the summary and no
    keyword of a group declared before it does: Sunny, the last group,
    only for a summary without any word of the Cloudy, Rainy and Snowy
    groups. *)
Theorem parse_weather_condition_category_iff (soup : Soup) (text : str)
    (pre post : condition_dict) (keywords : list str) (category : str) :
  summary soup = Some text ->
  WEATHER_CONDITION_DICT = pre ++ (keywords, category) :: post ->
  (parse_weather_condition soup = Ok category <->
   group_occurs keywords text /\
   (forall g, In g pre -> ~ group_occurs (fst g) text)).
Proof.
  intros Hs HD. split.
  - intros Hp.
    destruct (first_group_cases text WEATHER_CONDITION_DICT)
      as [[pre' [kws [cat [post' [HD' [Hocc Hpre]]]]]] | Hnone].
    + pose proof (parse_weather_condition_first soup text pre' post' kws
                    cat Hs HD' Hocc Hpre) as Hp'.
      rewrite Hp in Hp'. injection Hp' as <-.
      destruct (split_unique WEATHER_CONDITION_DICT pre pre' post post'
                  keywords kws category
                  WEATHER_CONDITION_DICT_categories_NoDup HD HD')
        as [-> ->].
      auto.
    + exfalso.
      rewrite (parse_weather_condition_none soup text Hs Hnone) in Hp.
      injection Hp as ->.
      assert (Hin : In (keywords, category) WEATHER_CONDITION_DICT)
        by (rewrite HD; apply in_elt).
      apply listed_category in Hin.
      apply weather_type_has_keyword in Hin.
      destruct Hin as [g [Hg Hocc]]. now apply (Hnone g).
  - intros [Hocc Hpre].
    now apply (parse_weather_condition_first soup text pre post keywords).
Qed.

Lemma parse_weather_condition_category_iff_witness :
  parse_weather_condition (soup_with_summary (lit "Sun after rain")) =
    Ok (lit "Sunny") <->
  group_occurs [lit "Sun"; lit "sun"; lit "Clear"; lit "clear"]
    (lit "Sun after rain") /\
  (forall g,
     In g [ ([lit "Cloud"; lit "cloud"; lit "overcast"; lit "Overcast";
              lit "foggy"; lit "Foggy"], lit "Cloudy");
            ([lit "Rain"; lit "rain"; lit "Drizzle"; lit "drizzle"],
              lit "Rainy");
            ([lit "Snow"; lit "snow"], lit "Snowy") ] ->
     ~ group_occurs (fst g) (lit "Sun after rain")).
Proof.
  apply (parse_weather_condition_category_iff
           (soup_with_summary (lit "Sun after rain"))
           (lit "Sun after rain") _ []).
  - reflexivity.
  - reflexivity.
Defined.

(** ** The update after an insertion *)

(** X23. The update that [store_forecast] runs after [get_or_create] has
    created a row is redundant: it leaves every row of the table as the
    insertion left it. *)
Theorem update_after_create_is_redundant (db db1 : Database)
    (record : entry) (data : Forecast.row) :
  get_or_create db (Date record) (Temperature record)
    (Weather_condition record) (Wind record) = ((data, true), db1) ->
  rows (update_where_date db1 (Date record) (Temperature record)
          (Weather_condition record) (Wind record)) = rows db1 /\
  rows db1 = rows db ++ [data] /\
  entry_of_row data = record.
Proof.
  unfold get_or_create.
  destruct (find (fun r => Forecast.date r =? Date record) (rows db))
    as [found |] eqn:E; [discriminate |].
  intros H. injection H as <- <-. fold (inserted_row db record).
  assert (Hno : ~ has_date (Date record) (rows db)).
  { intros [r [Hr Hd]]. pose proof (find_none _ _ E r Hr) as Hf.
    cbn beta in Hf. apply Z.eqb_neq in Hf. contradiction. }
  split; [| split].
  - unfold update_where_date, execute. cbn [rows].
    apply (update_after_insert (rows db) db record Hno).
  - reflexivity.
  - destruct record; reflexivity.
Qed.

Lemma update_after_create_is_redundant_witness :
  rows (update_where_date
          (snd (get_or_create empty_db (Date scenario_record)
                  (Temperature scenario_record)
                  (Weather_condition scenario_record)
                  (Wind scenario_record)))
          (Date scenario_record) (Temperature scenario_record)
          (Weather_condition scenario_record) (Wind scenario_record)) =
  rows (snd (get_or_create empty_db (Date scenario_record)
               (Temperature scenario_record)
               (Weather_condition scenario_record)
               (Wind scenario_record))).
Proof.
  apply (update_after_create_is_redundant empty_db
           (snd (get_or_create empty_db (Date scenario_record)
                   (Temperature scenario_record)
                   (Weather_condition scenario_record)
                   (Wind scenario_record)))
           scenario_record (inserted_row empty_db scenario_record)).
  vm_compute. reflexivity.
Defined.
